(** * game_chat/server/views.py : the server list endpoint

    A shallow embedding of [ServerListViewSet.list] and of the part of its
    environment it talks to: the query parameters of the request, the
    requesting user, Django's lazy [QuerySet] (a description of a SELECT
    that is only run by [exists()] and by iteration), the query set of
    line 11, which all view instances share and which keeps the rows it has
    fetched once it has been iterated, and the exceptions the handler can
    leave with.

    The handler is imperative: it reassigns [self.queryset] step by step and
    may raise half-way.  It is embedded in a state-and-exception monad whose
    state holds the view's [queryset] attribute, the rows cached by the
    shared query set and the stored table.

    What is assumed of the environment:
    - a request is served by a view instance of its own, on which
      [self.queryset] first reads the class attribute of line 11;
    - a query without GROUP BY yields its rows in the order of the table; a
      query with GROUP BY (the annotated one) yields them in an order of the
      database's choosing, which is a parameter of the development;
    - the database takes a LIMIT up to 2^63 - 1 and fails on a larger one;
    - a negative slice bound and a filter on a sliced query set raise
      [ValueError] and [TypeError] (older Django versions raise
      [AssertionError]; in either case nothing in the handler catches it);
    - Python's [int] is a parameter of the development: the theorems hold
      for every parser. *)

From stdpp Require Import gmap strings list fin_maps.
From Stdlib Require Import ZArith String Ascii Lia.

Local Open Scope string_scope.
Local Open Scope Z_scope.

(** ** Data model *)

Module Server.
(** Modelled from the spec: [models.py] is not among the sources.  A server
    record has an integer identifier, a name, the name of its category
    (the handler only ever looks at [category__name]) and the set of the
    identifiers of its members (a many-to-many relation: a user is a member
    of a server at most once). *)
Record t := mk {
  id : Z;
  name : string;
  category : string;
  member : gset Z
}.
End Server.

(** [request.user]: Django's [AnonymousUser] (whose [id] is [None]) or an
    authenticated user with its primary key. *)
Inductive User :=
| AnonymousUser
| AuthUser (pk : Z).

Definition is_authenticated (u : User) : bool :=
  match u with
  | AnonymousUser => false
  | AuthUser _ => true
  end.

Definition user_id (u : User) : option Z :=
  match u with
  | AnonymousUser => None
  | AuthUser pk => Some pk
  end.

(** The part of the request the handler reads.  [query_params.get k] is the
    map lookup: [None] when the key is absent. *)
Record Request := {
  user : User;
  query_params : gmap string string
}.

(** The exceptions that can leave the handler.  The first two are the
    framework's API exceptions (turned into 401/403 and 400 responses); the
    others are plain Python exceptions and the database's error
    ([django.db.DatabaseError]; SQLite reports the refused LIMIT as its
    subclass [IntegrityError]), which nothing above the handler catches. *)
Inductive Exception :=
| AuthenticationFailed
| ValidationError (detail : string)
| ValueError
| TypeError
| AttributeError
| DatabaseError.

Definition user_facing (e : Exception) : bool :=
  match e with
  | AuthenticationFailed | ValidationError _ => true
  | ValueError | TypeError | AttributeError | DatabaseError => false
  end.

Inductive Result (A : Type) :=
| Ok (a : A)
| Raise (e : Exception).
Arguments Ok {A} a.
Arguments Raise {A} e.

Definition Result_bind {A B} (r : Result A) (k : A -> Result B) : Result B :=
  match r with
  | Ok a => k a
  | Raise e => Raise e
  end.

Definition Result_map {A B} (f : A -> B) (r : Result A) : Result B :=
  Result_bind r (fun a => Ok (f a)).

(** Python truthiness of a [str]. *)
Definition nonempty (s : string) : bool :=
  match s with
  | EmptyString => false
  | String _ _ => true
  end.

(** The view of one record in the response. *)
Record ServerView := {
  view_id : Z;
  view_name : string;
  view_category : string;
  view_num_members : option nat
}.

(** ** A concrete reading of Python's [int(str)]

    A [str] is given by its UTF-8 bytes.  Python first rewrites a text that is
    not pure ASCII: a character from 127 on becomes a blank when it is
    Unicode whitespace, its value when it is a decimal digit (category Nd,
    Unicode 15), and an invalid character otherwise; ASCII characters stay.
    It then reads ASCII: blanks (codes 9 to 13 and 32) on both sides, one
    sign, and digits that may be separated by single underscores, at most
    4300 of them.  The handler and the theorems below are stated for an
    arbitrary parser; this one is used to run examples. *)
Module PyInt.

Definition continuation (c : ascii) : option N :=
  let n := N_of_ascii c in
  if ((128 <=? n) && (n <=? 191))%N then Some (n - 128)%N else None.

(** The code points of a UTF-8 text. *)
Fixpoint decode (s : string) : option (list N) :=
  match s with
  | EmptyString => Some []
  | String c s1 =>
      let n := N_of_ascii c in
      if (n <? 128)%N then cons n <$> decode s1
      else if ((194 <=? n) && (n <=? 223))%N then
        match s1 with
        | String c1 s2 =>
            match continuation c1 with
            | Some a => cons ((n - 192) * 64 + a)%N <$> decode s2
            | None => None
            end
        | _ => None
        end
      else if ((224 <=? n) && (n <=? 239))%N then
        match s1 with
        | String c1 (String c2 s3) =>
            match continuation c1, continuation c2 with
            | Some a, Some b =>
                cons ((n - 224) * 4096 + a * 64 + b)%N <$> decode s3
            | _, _ => None
            end
        | _ => None
        end
      else if ((240 <=? n) && (n <=? 244))%N then
        match s1 with
        | String c1 (String c2 (String c3 s4)) =>
            match continuation c1, continuation c2, continuation c3 with
            | Some a, Some b, Some d =>
                cons ((n - 240) * 262144 + a * 4096 + b * 64 + d)%N <$> decode s4
            | _, _, _ => None
            end
        | _ => None
        end
      else None
  end.

Definition unicode_space (n : N) : bool :=
  ((n =? 133) || (n =? 160) || (n =? 5760) ||
   ((8192 <=? n) && (n <=? 8202)) || (n =? 8232) || (n =? 8233) ||
   (n =? 8239) || (n =? 8287) || (n =? 12288))%N.

(** The code points of the digits zero of the decimal digits of Unicode:
    each is followed by the digits one to nine. *)
Definition zeros : list N :=
  [ 0x660; 0x6F0; 0x7C0; 0x966; 0x9E6; 0xA66; 0xAE6; 0xB66; 0xBE6; 0xC66;
    0xCE6; 0xD66; 0xDE6; 0xE50; 0xED0; 0xF20; 0x1040; 0x1090; 0x17E0;
    0x1810; 0x1946; 0x19D0; 0x1A80; 0x1A90; 0x1B50; 0x1BB0; 0x1C40; 0x1C50;
    0xA620; 0xA8D0; 0xA900; 0xA9D0; 0xA9F0; 0xAA50; 0xABF0; 0xFF10;
    0x104A0; 0x10D30; 0x11066; 0x110F0; 0x11136; 0x111D0; 0x112F0; 0x11450;
    0x114D0; 0x11650; 0x116C0; 0x11730; 0x118E0; 0x11950; 0x11C50; 0x11D50;
    0x11DA0; 0x11F50; 0x16A60; 0x16AC0; 0x16B50; 0x1D7CE; 0x1D7D8; 0x1D7E2;
    0x1D7EC; 0x1D7F6; 0x1E140; 0x1E2F0; 0x1E4F0; 0x1E950; 0x1FBF0 ]%N.

Definition decimal (n : N) : option N :=
  match List.find (fun z => (z <=? n) && (n <=? z + 9))%N zeros with
  | Some z => Some (n - z)%N
  | None => None
  end.

(** The rewriting of one character of a text that is not pure ASCII; 63 is
    the question mark, which no integer contains. *)
Definition to_ascii (n : N) : N :=
  if (n <? 127)%N then n
  else if unicode_space n then 32%N
  else match decimal n with
       | Some d => (48 + d)%N
       | None => 63%N
       end.

Definition normalize (l : list N) : list N :=
  if forallb (fun n => n <? 128)%N l then l else List.map to_ascii l.

Definition is_space (n : N) : bool :=
  (((9 <=? n) && (n <=? 13)) || (n =? 32))%N.

Definition digit_val (n : N) : option Z :=
  if ((48 <=? n) && (n <=? 57))%N then Some (Z.of_N (n - 48)) else None.

Fixpoint lstrip (l : list N) : list N :=
  match l with
  | n :: l' => if is_space n then lstrip l' else l
  | [] => []
  end.

(** [digits acc count after_digit l]: [after_digit] says that the previous
    character was a digit, so that an underscore, trailing blanks or the end
    of the text may follow; [count] is the number of digits read. *)
Fixpoint digits (acc : Z) (count : nat) (after_digit : bool) (l : list N)
  : option (Z * nat) :=
  match l with
  | [] => if after_digit then Some (acc, count) else None
  | n :: l' =>
      match digit_val n with
      | Some d => digits (10 * acc + d) (S count) true l'
      | None =>
          if negb after_digit then None
          else if (n =? 95)%N then digits acc count false l'
          else if forallb is_space l then Some (acc, count)
          else None
      end
  end.

Definition max_str_digits : nat := 4300.

Definition unsigned (l : list N) : option Z :=
  match digits 0 0 false l with
  | Some (v, count) => if (count <=? max_str_digits)%nat then Some v else None
  | None => None
  end.

Definition parse (s : string) : option Z :=
  match decode s with
  | Some l =>
      match lstrip (normalize l) with
      | 45%N :: l' => Z.opp <$> unsigned l'
      | 43%N :: l' => unsigned l'
      | l' => unsigned l'
      end
  | None => None
  end.

End PyInt.

(** ** The query builder

    A [QuerySet] is lazy: [filter], [annotate] and slicing only build the
    description of a SELECT over the server table.  The description records
    the conjuncts of the WHERE clause, whether the member count is selected,
    and the upper limit (LIMIT) set by a slice. *)
Module QuerySet.

Inductive Lookup :=
| category__name (v : string)
| member (v : option Z)
| id (v : Z).

Record t := mk {
  where_ : list Lookup;
  num_members : bool;
  high_mark : option Z
}.

(** [Server.objects.all()] *)
Definition all : t :=
  {| where_ := []; num_members := false; high_mark := None |}.

Definition is_sliced (q : t) : bool :=
  match high_mark q with
  | Some _ => true
  | None => false
  end.

Definition add_q (q : t) (l : Lookup) : t :=
  {| where_ := where_ q ++ [l]; num_members := num_members q;
     high_mark := high_mark q |}.

(** [q.annotate(num_members=Count('member'))] *)
Definition annotate (q : t) : t :=
  {| where_ := where_ q; num_members := true; high_mark := high_mark q |}.

(** [q[:k]] on a query set that has not been iterated: a negative bound is
    refused ("Negative indexing is not supported."); a second slice of a
    sliced query is taken inside the first.  The bound only reaches the
    database when the query is run. *)
Definition set_limits (q : t) (k : Z) : t :=
  {| where_ := where_ q; num_members := num_members q;
     high_mark := Some (match high_mark q with
                        | Some h => Z.min h k
                        | None => k
                        end) |}.

Definition getitem (q : t) (k : Z) : Result t :=
  if k <? 0 then Raise ValueError else Ok (set_limits q k).

Section Filter.
(** Python's [int] on a [str]: [None] stands for its [ValueError]. *)
Variable py_int : string -> option Z.

(** [q.filter(...)] refuses a sliced query before it looks at its
    arguments ("Cannot filter a query once a slice has been taken."). *)
Definition filter_category__name (q : t) (v : string) : Result t :=
  if is_sliced q then Raise TypeError
  else Ok (add_q q (category__name v)).

Definition filter_member (q : t) (v : option Z) : Result t :=
  if is_sliced q then Raise TypeError
  else Ok (add_q q (member v)).

(** [q.filter(id=v)] with [v] a [str]: the integer field prepares the
    value with [int(v)]. *)
Definition filter_id (q : t) (v : string) : Result t :=
  if is_sliced q then Raise TypeError
  else
    match py_int v with
    | Some i => Ok (add_q q (id i))
    | None => Raise ValueError
    end.
End Filter.

(** *** Running a query

    A query that mentions [member] joins the membership table (LEFT OUTER
    JOIN): a server contributes one joined row per member, or one row with
    NULL when it has none.  The WHERE clause is evaluated on the joined
    rows, the rows are grouped by server, and [Count('member')] counts the
    non-NULL members of the group.  For a query that does not mention
    [member] the joined rows of a server pass or fail together, so that the
    join changes nothing; in every case a server yields at most one row. *)
Definition member_join (s : Server.t) : list (option Z) :=
  match elements (Server.member s) with
  | [] => [None]
  | us => Some <$> us
  end.

Definition holds (s : Server.t) (m : option Z) (l : Lookup) : bool :=
  match l with
  | category__name v => String.eqb (Server.category s) v
  | member v => bool_decide (m = v)
  | id v => Z.eqb (Server.id s) v
  end.

Definition joined_rows (q : t) (s : Server.t) : list (option Z) :=
  List.filter (fun m => forallb (holds s m) (where_ q)) (member_join s).

Definition is_not_null (m : option Z) : bool :=
  match m with
  | Some _ => true
  | None => false
  end.

Record Row := {
  server : Server.t;
  count_member : option nat
}.

Definition selected (q : t) (s : Server.t) : bool :=
  match joined_rows q s with
  | [] => false
  | _ :: _ => true
  end.

Definition row_of (q : t) (s : Server.t) : Row :=
  {| server := s;
     count_member :=
       if num_members q
       then Some (List.length (List.filter is_not_null (joined_rows q s)))
       else None |}.

(** The order in which the database hands out the groups of a query with
    GROUP BY and no ORDER BY: some rearrangement of the servers that pass
    the WHERE clause, which may depend on the query. *)
Record Order := {
  group_order : t -> list Server.t -> list Server.t;
  group_order_perm : forall q l, group_order q l ≡ₚ l
}.

(** The largest LIMIT the database takes. *)
Definition max_limit : Z := 2 ^ 63 - 1.

(** The first [k] elements of a list, for a bound that may be far larger
    than the list. *)
Definition first_n {A} (k : Z) (l : list A) : list A :=
  take (Z.to_nat (Z.min k (Z.of_nat (List.length l)))) l.

Section Run.
Variable order : Order.

(** The order of the rows of a query: the table's, unless the query is
    annotated, which makes it a GROUP BY query. *)
Definition ordered (q : t) (l : list Server.t) : list Server.t :=
  if num_members q then group_order order q l else l.

Definition select (q : t) (table : list Server.t) : list Row :=
  row_of q <$> ordered q (List.filter (selected q) table).

(** Iterating over the query set: the database refuses a LIMIT it cannot
    take; otherwise the rows come in the order above, cut at the limit. *)
Definition execute (q : t) (table : list Server.t) : Result (list Row) :=
  match high_mark q with
  | Some h =>
      if max_limit <? h then Raise DatabaseError
      else Ok (first_n h (select q table))
  | None => Ok (select q table)
  end.
End Run.

(** [q.exists()]: a query of its own (SELECT 1 ... LIMIT 1) that asks whether
    some server passes the WHERE clause within the limit. *)
Definition exists_ (q : t) (table : list Server.t) : bool :=
  match high_mark q with
  | Some 0 => false
  | _ => existsb (selected q) table
  end.

End QuerySet.

(** Modelled from the spec: [serializer.py] is not among the sources.  The
    serializer maps every record of the query set to a view with the fields
    [id], [name] and [category], and with the member count only when the
    context entry [num_members] is true. *)
Definition ServerSerializer (rows : list QuerySet.Row) (num_members : bool)
  : list ServerView :=
  (fun r =>
     {| view_id := Server.id (QuerySet.server r);
        view_name := Server.name (QuerySet.server r);
        view_category := Server.category (QuerySet.server r);
        view_num_members :=
          if num_members then QuerySet.count_member r else None |}) <$> rows.

(** ** What [self.queryset] holds

    On a new view instance the attribute reads the query set of line 11,
    one object shared by all instances.  [filter] and [annotate] return a
    query set of the request's own.  A slice of a query set that has already
    been iterated is a Python list of the rows it has cached, which has none
    of the methods of a query set. *)
Inductive Queryset :=
| ClassQuerySet
| OwnQuerySet (q : QuerySet.t)
| RowList (rows : list Server.t).

(** The description behind a query set. *)
Definition the_query (v : Queryset) : Result QuerySet.t :=
  match v with
  | ClassQuerySet => Ok QuerySet.all
  | OwnQuerySet q => Ok q
  | RowList _ => Raise AttributeError
  end.

Section Methods.
Variable py_int : string -> option Z.

Definition filter_category__name (v : Queryset) (c : string) : Result Queryset :=
  Result_bind (the_query v) (fun q =>
  Result_map OwnQuerySet (QuerySet.filter_category__name q c)).

Definition filter_member (v : Queryset) (u : option Z) : Result Queryset :=
  Result_bind (the_query v) (fun q =>
  Result_map OwnQuerySet (QuerySet.filter_member q u)).

Definition filter_id (v : Queryset) (i : string) : Result Queryset :=
  Result_bind (the_query v) (fun q =>
  Result_map OwnQuerySet (QuerySet.filter_id py_int q i)).

Definition annotate (v : Queryset) : Result Queryset :=
  Result_map (fun q => OwnQuerySet (QuerySet.annotate q)) (the_query v).
End Methods.

(** [rows[:k]] on a Python list. *)
Definition list_slice (rows : list Server.t) (k : Z) : list Server.t :=
  if k <? 0 then take (Z.to_nat (Z.of_nat (List.length rows) + k)) rows
  else QuerySet.first_n k rows.

(** A row without annotation. *)
Definition plain_row (s : Server.t) : QuerySet.Row :=
  {| QuerySet.server := s; QuerySet.count_member := None |}.

(** ** The state-and-exception monad of the handler

    The state is what the handler can read or assign: the [queryset]
    attribute of the view instance, the rows the shared query set of line 11
    has cached ([None] as long as it has not been iterated) and the stored
    server table.  An exception keeps the state reached so far, as in
    Python. *)
Record State := {
  self_queryset : Queryset;
  result_cache : option (list Server.t);
  storage : list Server.t
}.

Definition M (A : Type) : Type := State -> Result A * State.

Definition ret {A} (a : A) : M A := fun st => (Ok a, st).

Definition bind {A B} (m : M A) (k : A -> M B) : M B :=
  fun st =>
    match m st with
    | (Ok a, st') => k a st'
    | (Raise e, st') => (Raise e, st')
    end.

Definition raise {A} (e : Exception) : M A := fun st => (Raise e, st).

Definition lift {A} (r : Result A) : M A := fun st => (r, st).

Notation "x <- m ;; k" := (bind m (fun x => k))
  (at level 100, m at next level, right associativity).
Notation "m ;; k" := (bind m (fun _ => k))
  (at level 100, right associativity).

Definition when (b : bool) (m : M unit) : M unit :=
  if b then m else ret tt.

(** [if v: ...] for a query parameter [v]: the body runs on a non-empty
    string only. *)
Definition if_truthy (v : option string) (body : string -> M unit) : M unit :=
  match v with
  | Some s => if nonempty s then body s else ret tt
  | None => ret tt
  end.

(** [try: body except ValueError: handler] *)
Definition try_except_ValueError {A} (body handler : M A) : M A :=
  fun st =>
    match body st with
    | (Raise ValueError, st') => handler st'
    | r => r
    end.

(** Reading and assigning [self.queryset]. *)
Definition get_queryset : M Queryset :=
  fun st => (Ok (self_queryset st), st).

Definition set_queryset (q : Queryset) : M unit :=
  fun st => (Ok tt, {| self_queryset := q;
                       result_cache := result_cache st;
                       storage := storage st |}).

(** [q[:k]]: the bound is checked first; then a query set that has been
    iterated answers with a list cut from its cached rows, and one that has
    not answers with a sliced query set. *)
Definition queryset_getitem (q : Queryset) (k : Z) : M Queryset :=
  fun st =>
    match q with
    | RowList rows => (Ok (RowList (list_slice rows k)), st)
    | OwnQuerySet q' => (Result_map OwnQuerySet (QuerySet.getitem q' k), st)
    | ClassQuerySet =>
        match QuerySet.getitem QuerySet.all k with
        | Raise e => (Raise e, st)
        | Ok q' =>
            match result_cache st with
            | Some rows => (Ok (RowList (list_slice rows k)), st)
            | None => (Ok (OwnQuerySet q'), st)
            end
        end
    end.

(** [q.exists()] *)
Definition queryset_exists (q : Queryset) : M bool :=
  fun st =>
    match q with
    | RowList _ => (Raise AttributeError, st)
    | OwnQuerySet q' => (Ok (QuerySet.exists_ q' (storage st)), st)
    | ClassQuerySet =>
        match result_cache st with
        | Some rows => (Ok (match rows with [] => false | _ :: _ => true end), st)
        | None => (Ok (QuerySet.exists_ QuerySet.all (storage st)), st)
        end
    end.

(** Iterating, as the serializer does: a list yields its rows; a query set
    of the request's own is run; the shared query set yields the rows it
    has cached and, when it has none, fetches the table and keeps it. *)
Definition queryset_iter (order : QuerySet.Order) (q : Queryset)
  : M (list QuerySet.Row) :=
  fun st =>
    match q with
    | RowList rows => (Ok (plain_row <$> rows), st)
    | OwnQuerySet q' => (QuerySet.execute order q' (storage st), st)
    | ClassQuerySet =>
        match result_cache st with
        | Some rows => (Ok (plain_row <$> rows), st)
        | None =>
            (Ok (plain_row <$> storage st),
             {| self_queryset := self_queryset st;
                result_cache := Some (storage st);
                storage := storage st |})
        end
    end.

(** [int(s)] as a computation. *)
Definition int_of (py_int : string -> option Z) (s : string) : M Z :=
  match py_int s with
  | Some n => ret n
  | None => raise ValueError
  end.

(** [f'Server with id {by_serverid} not found'] *)
Definition not_found_detail (by_serverid : string) : string :=
  "Server with id " ++ by_serverid ++ " not found".

(** ** The handler *)
Module ServerListViewSet.

(** The class attribute [queryset = Server.objects.all()] of line 11: what
    [self.queryset] reads on a new view instance. *)
Definition queryset : Queryset := ClassQuerySet.

Section Handler.
Variable py_int : string -> option Z.
Variable order : QuerySet.Order.

(** [ServerListViewSet.list], lines 42 to 84. *)
Definition list (request : Request) : M (Datatypes.list ServerView) :=
  let category := query_params request !! "category" in
  let qty := query_params request !! "qty" in
  let by_user := bool_decide (query_params request !! "by_user" = Some "true") in
  let by_serverid := query_params request !! "by_serverid" in
  let with_num_members :=
    bool_decide (query_params request !! "with_num_members" = Some "true") in
  when (by_user && negb (is_authenticated (user request)))
    (raise AuthenticationFailed) ;;
  if_truthy category (fun category =>
    q <- get_queryset ;;
    q' <- lift (filter_category__name q category) ;;
    set_queryset q') ;;
  when by_user
    (when (by_user && negb (is_authenticated (user request)))
       (let user_id := user_id (user request) in
        q <- get_queryset ;;
        q' <- lift (filter_member q user_id) ;;
        set_queryset q')) ;;
  when with_num_members
    (q <- get_queryset ;;
     q' <- lift (annotate q) ;;
     set_queryset q') ;;
  if_truthy qty (fun qty =>
    q <- get_queryset ;;
    n <- int_of py_int qty ;;
    q' <- queryset_getitem q n ;;
    set_queryset q') ;;
  if_truthy by_serverid (fun by_serverid =>
    try_except_ValueError
      (q <- get_queryset ;;
       q' <- lift (filter_id py_int q by_serverid) ;;
       set_queryset q' ;;
       q'' <- get_queryset ;;
       found <- queryset_exists q'' ;;
       when (negb found)
         (raise (ValidationError (not_found_detail by_serverid))))
      (raise (ValidationError (not_found_detail by_serverid)))) ;;
  q <- get_queryset ;;
  rows <- queryset_iter order q ;;
  ret (ServerSerializer rows with_num_members).

End Handler.
End ServerListViewSet.

(** A request is served by a new view instance: [self.queryset] starts as the
    class attribute, in whatever state earlier requests have left the shared
    query set. *)
Definition new_view (cache : option (list Server.t)) (table : list Server.t)
  : State :=
  {| self_queryset := ServerListViewSet.queryset;
     result_cache := cache;
     storage := table |}.

(** ** The parameters as the handler reads them (lines 42 to 46) *)
Definition by_user (request : Request) : bool :=
  bool_decide (query_params request !! "by_user" = Some "true").

Definition with_num_members (request : Request) : bool :=
  bool_decide (query_params request !! "with_num_members" = Some "true").

(** The guard of line 49 lets the request through. *)
Definition auth_ok (request : Request) : bool :=
  negb (by_user request && negb (is_authenticated (user request))).

(** The request without one of its query parameters. *)
Definition without (k : string) (request : Request) : Request :=
  {| user := user request; query_params := delete k (query_params request) |}.

(** The value an [if v:] guard lets through. *)
Definition present (v : option string) : option string :=
  match v with
  | Some s => if nonempty s then Some s else None
  | None => None
  end.

(** ** The statements of the handler, block by block *)
Section Steps.
Variable py_int : string -> option Z.
Variable order : QuerySet.Order.

(** lines 49-50 *)
Definition check_authentication (request : Request) : M unit :=
  when (by_user request && negb (is_authenticated (user request)))
    (raise AuthenticationFailed).

(** lines 53-54 *)
Definition filter_category (request : Request) : M unit :=
  if_truthy (query_params request !! "category") (fun category =>
    q <- get_queryset ;;
    q' <- lift (filter_category__name q category) ;;
    set_queryset q').

(** lines 57-60 *)
Definition filter_membership (request : Request) : M unit :=
  when (by_user request)
    (when (by_user request && negb (is_authenticated (user request)))
       (q <- get_queryset ;;
        q' <- lift (filter_member q (user_id (user request))) ;;
        set_queryset q')).

(** lines 63-64 *)
Definition annotate_num_members (request : Request) : M unit :=
  when (with_num_members request)
    (q <- get_queryset ;;
     q' <- lift (annotate q) ;;
     set_queryset q').

(** lines 67-68 *)
Definition truncate_qty (request : Request) : M unit :=
  if_truthy (query_params request !! "qty") (fun qty =>
    q <- get_queryset ;;
    n <- int_of py_int qty ;;
    q' <- queryset_getitem q n ;;
    set_queryset q').

(** lines 71-79 *)
Definition filter_serverid (request : Request) : M unit :=
  if_truthy (query_params request !! "by_serverid") (fun by_serverid =>
    try_except_ValueError
      (q <- get_queryset ;;
       q' <- lift (filter_id py_int q by_serverid) ;;
       set_queryset q' ;;
       q'' <- get_queryset ;;
       found <- queryset_exists q'' ;;
       when (negb found)
         (raise (ValidationError (not_found_detail by_serverid))))
      (raise (ValidationError (not_found_detail by_serverid)))).

(** lines 82-84 *)
Definition serialize (request : Request) : M (list ServerView) :=
  q <- get_queryset ;;
  rows <- queryset_iter order q ;;
  ret (ServerSerializer rows (with_num_members request)).

(** lines 49-79: what the handler does to [self.queryset] before it
    serializes it. *)
Definition build_queryset (request : Request) : M unit :=
  check_authentication request ;;
  filter_category request ;;
  filter_membership request ;;
  annotate_num_members request ;;
  truncate_qty request ;;
  filter_serverid request.

(** What the client gets: the outcome of the handler on a new view
    instance. *)
Definition dispatch (request : Request) (cache : option (list Server.t))
  (table : list Server.t) : Result (list ServerView) :=
  fst (ServerListViewSet.list py_int order request (new_view cache table)).

(** The rows handed to the serializer on line 82: what iterating
    [self.queryset] yields once lines 49 to 79 are done. *)
Definition served_rows (request : Request) (cache : option (list Server.t))
  (table : list Server.t) : Result (list QuerySet.Row) :=
  let st := snd (build_queryset request (new_view cache table)) in
  fst (queryset_iter order (self_queryset st) st).

(** The query the handler has built once the category and annotation steps
    are done on a new view instance. *)
Definition category_query (request : Request) : QuerySet.t :=
  match query_params request !! "category" with
  | Some c =>
      if nonempty c
      then QuerySet.add_q QuerySet.all (QuerySet.category__name c)
      else QuerySet.all
  | None => QuerySet.all
  end.

Definition base_query (request : Request) : QuerySet.t :=
  if with_num_members request
  then QuerySet.annotate (category_query request)
  else category_query request.

(** The guard of line 67 is passed, or the slice of line 68 succeeds with a
    bound the database takes. *)
Definition qty_ok (request : Request) : bool :=
  match query_params request !! "qty" with
  | Some q =>
      if nonempty q
      then match py_int q with
           | Some n => (0 <=? n) && (n <=? QuerySet.max_limit)
           | None => false
           end
      else true
  | None => true
  end.

End Steps.

(** The state of a view whose [queryset] attribute holds [v]. *)
Definition at_ (v : Queryset) (cache : option (list Server.t))
  (table : list Server.t) : State :=
  {| self_queryset := v; result_cache := cache; storage := table |}.

(** The category or annotation step gives the request a query set of its
    own. *)
Definition own_query (request : Request) : bool :=
  match present (query_params request !! "category") with
  | Some _ => true
  | None => with_num_members request
  end.

(** What [self.queryset] holds when line 67 is reached, and after the slice
    of line 68 with a bound that is not negative. *)
Definition start_value (request : Request) : Queryset :=
  if own_query request then OwnQuerySet (base_query request) else ClassQuerySet.

Definition sliced (v : Queryset) (cache : option (list Server.t)) (n : Z)
  : Queryset :=
  match v with
  | ClassQuerySet =>
      match cache with
      | Some rows => RowList (list_slice rows n)
      | None => OwnQuerySet (QuerySet.set_limits QuerySet.all n)
      end
  | OwnQuerySet q => OwnQuerySet (QuerySet.set_limits q n)
  | RowList rows => RowList (list_slice rows n)
  end.

(** The cached rows a request works on: those of the shared query set, when
    it has been iterated and the request reaches line 67 without a query set
    of its own. *)
Definition cached_rows (request : Request) (cache : option (list Server.t))
  : option (list Server.t) :=
  if own_query request then None else cache.

(** The records a request ranges over: the stored table, or the rows the
    shared query set has cached when the request uses it as it is (no
    category, no count, no [by_serverid]) and it has been iterated. *)
Definition scanned (request : Request) (cache : option (list Server.t))
  (table : list Server.t) : list Server.t :=
  match cache with
  | Some rows =>
      if own_query request then table
      else match present (query_params request !! "by_serverid") with
           | Some _ => table
           | None => rows
           end
  | None => table
  end.

(** The records the category step of lines 53-54 keeps. *)
Definition category_ok (request : Request) (s : Server.t) : bool :=
  match present (query_params request !! "category") with
  | Some c => String.eqb (Server.category s) c
  | None => true
  end.

Section Answer.
Variable py_int : string -> option Z.
Variable order : QuerySet.Order.

(** The records of the answer to a request that is answered: the cached rows
    or the servers the query yields, cut at [qty]. *)
Definition answer_records (request : Request) (cache : option (list Server.t))
  (table : list Server.t) : list Server.t :=
  let q := base_query request in
  let kept := List.filter (category_ok request) table in
  match present (query_params request !! "qty") with
  | Some qty =>
      match py_int qty, cached_rows request cache with
      | Some n, Some rows => QuerySet.first_n n rows
      | Some n, None =>
          QuerySet.first_n n
            (QuerySet.ordered order (QuerySet.set_limits q n) kept)
      | None, _ => []
      end
  | None =>
      match present (query_params request !! "by_serverid") with
      | Some sid =>
          match py_int sid with
          | Some i =>
              QuerySet.ordered order (QuerySet.add_q q (QuerySet.id i))
                (List.filter
                   (fun s => category_ok request s && (Server.id s =? i)) table)
          | None => []
          end
      | None =>
          match cached_rows request cache with
          | Some rows => rows
          | None => QuerySet.ordered order q kept
          end
      end
  end.

End Answer.

(** The view the specification expects for a record when the count is asked
    for. *)
Definition view_with_count (s : Server.t) : ServerView :=
  {| view_id := Server.id s;
     view_name := Server.name s;
     view_category := Server.category s;
     view_num_members := Some (size (Server.member s)) |}.

(** The row the specification expects for a record when the count is asked
    for. *)
Definition annotated_row (s : Server.t) : QuerySet.Row :=
  {| QuerySet.server := s;
     QuerySet.count_member := Some (size (Server.member s)) |}.

(** The row of a record, annotated when the count is asked for. *)
Definition row_for (num : bool) (s : Server.t) : QuerySet.Row :=
  if num then annotated_row s else plain_row s.

(** The view of a record, with the member count when it is asked for. *)
Definition view_of (num : bool) (s : Server.t) : ServerView :=
  {| view_id := Server.id s;
     view_name := Server.name s;
     view_category := Server.category s;
     view_num_members := if num then Some (size (Server.member s)) else None |}.

(** A view without its member count. *)
Definition drop_count (v : ServerView) : ServerView :=
  {| view_id := view_id v;
     view_name := view_name v;
     view_category := view_category v;
     view_num_members := None |}.

(** The keys read on lines 42 to 46. *)
Definition known_parameters : list string :=
  ["category"; "qty"; "by_user"; "by_serverid"; "with_num_members"].

(** The request with one more query parameter. *)
Definition with_param (k v : string) (request : Request) : Request :=
  {| user := user request; query_params := <[k:=v]> (query_params request) |}.

(** A state transformer that leaves the stored table alone. *)
Definition read_only {A} (m : M A) : Prop :=
  forall st, storage (snd (m st)) = storage st.

(** A query whose WHERE clause does not mention [member], and the servers it
    keeps. *)
Definition member_free (q : QuerySet.t) : bool :=
  forallb (fun l => match l with QuerySet.member _ => false | _ => true end)
    (QuerySet.where_ q).

Definition matches (q : QuerySet.t) (s : Server.t) : bool :=
  forallb (QuerySet.holds s None) (QuerySet.where_ q).

(** The fixed sequence of the specification (section 4.1, steps 2 to 8), read
    on the stored records: the authentication check, the category filter,
    the membership filter for an authenticated requester, the annotation,
    the truncation to the first [qty] records, the [by_serverid] filter and
    the serialization. *)
Definition claimed_sequence (py_int : string -> option Z) (request : Request)
  (table : list Server.t) : Result (list ServerView) :=
  if by_user request && negb (is_authenticated (user request))
  then Raise AuthenticationFailed
  else
    let ws := List.filter (category_ok request) table in
    let ws :=
      match by_user request, user_id (user request) with
      | true, Some u =>
          List.filter (fun s => bool_decide (u ∈ Server.member s)) ws
      | _, _ => ws
      end in
    Result_bind
      (match present (query_params request !! "qty") with
       | Some q =>
           match py_int q with
           | Some n => Ok (take (Z.to_nat n) ws)
           | None => Raise ValueError
           end
       | None => Ok ws
       end) (fun ws =>
    Result_bind
      (match present (query_params request !! "by_serverid") with
       | Some sid =>
           match py_int sid with
           | Some i =>
               match List.filter (fun s => Server.id s =? i) ws with
               | [] => Raise (ValidationError (not_found_detail sid))
               | found => Ok found
               end
           | None => Raise (ValidationError (not_found_detail sid))
           end
       | None => Ok ws
       end) (fun ws =>
    Ok (view_of (with_num_members request) <$> ws))).

(** ** Sample data *)
Module Sample.
Definition lobby : Server.t := Server.mk 1 "lobby" "gaming" {[2; 3]}.
Definition maths : Server.t := Server.mk 2 "maths" "study" ∅.
Definition arena : Server.t := Server.mk 3 "arena" "gaming" {[7]}.
Definition table : list Server.t := [lobby; maths; arena].
Definition request (u : User) (params : list (string * string)) : Request :=
  {| user := u; query_params := list_to_map params |}.

(** A database that hands out the groups of a GROUP BY query category by
    category: the "gaming" servers first. *)
Definition by_category (l : list Server.t) : list Server.t :=
  List.filter (fun s => String.eqb (Server.category s) "gaming") l ++
  List.filter (fun s => negb (String.eqb (Server.category s) "gaming")) l.

Definition order : QuerySet.Order.
Proof.
  refine {| QuerySet.group_order := fun _ l => by_category l |}.
  intros _ l. unfold by_category.
  induction l as [|s l IH]; simpl; [reflexivity|].
  destruct (String.eqb (Server.category s) "gaming"); simpl.
  - now constructor.
  - rewrite <- Permutation_middle. now constructor.
Defined.
End Sample.

(** ** Properties *)

(** *** The monad *)
Lemma bind_ok {A B} (m : M A) (k : A -> M B) st a st' :
  m st = (Ok a, st') -> bind m k st = k a st'.
Proof. intros H. unfold bind. now rewrite H. Qed.

Lemma bind_raise {A B} (m : M A) (k : A -> M B) st e st' :
  m st = (Raise e, st') -> bind m k st = (Raise e, st').
Proof. intros H. unfold bind. now rewrite H. Qed.

Lemma bind_assoc {A B C} (m : M A) (k : A -> M B) (h : B -> M C) st :
  bind (bind m k) h st = bind m (fun a => bind (k a) h) st.
Proof. unfold bind. destruct (m st) as [[a|e] st']; reflexivity. Qed.

Lemma first_n_take {A} (k : Z) (l : list A) :
  QuerySet.first_n k l = take (Z.to_nat k) l.
Proof.
  unfold QuerySet.first_n.
  destruct (Z.le_gt_cases k (Z.of_nat (List.length l))) as [Hk|Hk].
  - now rewrite Z.min_l.
  - rewrite Z.min_r, Nat2Z.id by lia.
    rewrite !take_ge; [reflexivity | lia | reflexivity].
Qed.

Section Properties.
Variable py_int : string -> option Z.
Variable order : QuerySet.Order.

(** The handler is lines 49 to 79 followed by the serialization. *)
Lemma list_build request st :
  ServerListViewSet.list py_int order request st =
  (build_queryset py_int request ;; serialize order request) st.
Proof.
  change (ServerListViewSet.list py_int order request st) with
    ((check_authentication request ;;
      filter_category request ;;
      filter_membership request ;;
      annotate_num_members request ;;
      truncate_qty py_int request ;;
      filter_serverid py_int request ;;
      serialize order request) st).
  unfold build_queryset, bind.
  destruct (check_authentication request st) as [[[]|e] st1]; [|reflexivity].
  destruct (filter_category request st1) as [[[]|e] st2]; [|reflexivity].
  destruct (filter_membership request st2) as [[[]|e] st3]; [|reflexivity].
  destruct (annotate_num_members request st3) as [[[]|e] st4]; [|reflexivity].
  destruct (truncate_qty py_int request st4) as [[[]|e] st5]; [|reflexivity].
  reflexivity.
Qed.

(** *** The blocks one by one *)
Lemma check_authentication_run request st :
  check_authentication request st =
  (if auth_ok request then Ok tt else Raise AuthenticationFailed, st).
Proof.
  unfold check_authentication, auth_ok.
  destruct (by_user request && negb (is_authenticated (user request))); reflexivity.
Qed.

(** The inner guard of line 58 repeats the guard of line 49, which has
    already raised when it holds: the membership filter of line 60 is never
    reached. *)
Lemma filter_membership_skipped request st :
  auth_ok request = true -> filter_membership request st = (Ok tt, st).
Proof.
  unfold filter_membership, auth_ok. intros H.
  apply negb_true_iff in H. rewrite H.
  destruct (by_user request); reflexivity.
Qed.

Lemma base_query_high_mark request :
  QuerySet.high_mark (base_query request) = None.
Proof.
  unfold base_query, category_query.
  destruct (with_num_members request), (query_params request !! "category") as [c|];
    simpl; try destruct (nonempty c); reflexivity.
Qed.

Lemma base_query_num_members request :
  QuerySet.num_members (base_query request) = with_num_members request.
Proof.
  unfold base_query, category_query.
  destruct (with_num_members request), (query_params request !! "category") as [c|];
    simpl; try destruct (nonempty c); reflexivity.
Qed.

Lemma base_query_where request :
  QuerySet.where_ (base_query request) =
  match present (query_params request !! "category") with
  | Some c => [QuerySet.category__name c]
  | None => []
  end.
Proof.
  unfold base_query, category_query, present.
  destruct (with_num_members request), (query_params request !! "category") as [c|];
    simpl; try destruct (nonempty c); reflexivity.
Qed.

Lemma the_query_start_value request :
  the_query (start_value request) = Ok (base_query request).
Proof.
  unfold start_value, own_query, base_query, category_query, present.
  destruct (query_params request !! "category") as [c|];
    [destruct (nonempty c)|]; destruct (with_num_members request); reflexivity.
Qed.

(** On a new view instance, a request that passes the guard of line 49
    reaches line 67 with [start_value] in [self.queryset]. *)
Lemma build_queryset_start request cache table :
  auth_ok request = true ->
  build_queryset py_int request (new_view cache table) =
  (truncate_qty py_int request ;; filter_serverid py_int request)
    (at_ (start_value request) cache table).
Proof.
  intros Hauth. unfold build_queryset.
  erewrite bind_ok by (rewrite check_authentication_run, Hauth; reflexivity).
  unfold bind at 1.
  assert (Hcat : filter_category request (new_view cache table) =
    (Ok tt, at_ (match present (query_params request !! "category") with
                 | Some c => OwnQuerySet (category_query request)
                 | None => ClassQuerySet
                 end) cache table)).
  { unfold filter_category, category_query, present.
    destruct (query_params request !! "category") as [c|]; [|reflexivity].
    simpl. destruct (nonempty c); reflexivity. }
  rewrite Hcat. clear Hcat.
  erewrite bind_ok by (apply filter_membership_skipped, Hauth).
  unfold bind at 1.
  assert (Hann : forall v, the_query v = Ok (category_query request) ->
    (v = ClassQuerySet \/ v = OwnQuerySet (category_query request)) ->
    annotate_num_members request (at_ v cache table) =
    (Ok tt, at_ (if with_num_members request
                 then OwnQuerySet (QuerySet.annotate (category_query request))
                 else v) cache table)).
  { intros v Hv Hcase. unfold annotate_num_members.
    destruct (with_num_members request); [|reflexivity].
    destruct Hcase as [-> | ->]; [|reflexivity].
    simpl in Hv. injection Hv as Hv.
    unfold when, bind, annotate. simpl. now rewrite <- Hv. }
  unfold start_value, own_query, base_query.
  destruct (present (query_params request !! "category")) as [c|] eqn:Hc.
  - rewrite Hann; [|reflexivity|now right].
    destruct (with_num_members request); reflexivity.
  - assert (Hall : category_query request = QuerySet.all).
    { unfold category_query. unfold present in Hc.
      destruct (query_params request !! "category") as [c|]; [|reflexivity].
      destruct (nonempty c); [discriminate | reflexivity]. }
    rewrite Hann; [|now rewrite Hall|now left].
    destruct (with_num_members request); reflexivity.
Qed.

Lemma truncate_qty_run request v cache table :
  (v = ClassQuerySet \/ exists q, v = OwnQuerySet q) ->
  truncate_qty py_int request (at_ v cache table) =
  match present (query_params request !! "qty") with
  | Some s =>
      match py_int s with
      | Some n =>
          if n <? 0 then (Raise ValueError, at_ v cache table)
          else (Ok tt, at_ (sliced v cache n) cache table)
      | None => (Raise ValueError, at_ v cache table)
      end
  | None => (Ok tt, at_ v cache table)
  end.
Proof.
  intros Hv. unfold truncate_qty, present.
  destruct (query_params request !! "qty") as [s|]; [|reflexivity].
  simpl. destruct (nonempty s); [|reflexivity].
  unfold bind, int_of. simpl. destruct (py_int s) as [n|]; [|reflexivity].
  simpl. destruct Hv as [-> | [q ->]]; simpl; unfold QuerySet.getitem;
    destruct (n <? 0); try reflexivity.
  destruct cache; reflexivity.
Qed.

Lemma filter_serverid_run request v cache table :
  filter_serverid py_int request (at_ v cache table) =
  match present (query_params request !! "by_serverid") with
  | Some s =>
      match the_query v with
      | Raise e => (Raise e, at_ v cache table)
      | Ok q =>
          if QuerySet.is_sliced q then (Raise TypeError, at_ v cache table)
          else
            match py_int s with
            | Some i =>
                let q' := QuerySet.add_q q (QuerySet.id i) in
                (if QuerySet.exists_ q' table then Ok tt
                 else Raise (ValidationError (not_found_detail s)),
                 at_ (OwnQuerySet q') cache table)
            | None => (Raise (ValidationError (not_found_detail s)),
                       at_ v cache table)
            end
      end
  | None => (Ok tt, at_ v cache table)
  end.
Proof.
  unfold filter_serverid, present.
  destruct (query_params request !! "by_serverid") as [s|]; [|reflexivity].
  simpl. destruct (nonempty s); [|reflexivity].
  unfold try_except_ValueError, bind, filter_id, QuerySet.filter_id. simpl.
  destruct v as [|q|rows]; simpl; try reflexivity.
  - destruct (py_int s) as [i|]; [|reflexivity].
    simpl. destruct (QuerySet.exists_ _ table); reflexivity.
  - destruct (QuerySet.is_sliced q); [reflexivity|].
    destruct (py_int s) as [i|]; [|reflexivity].
    simpl. destruct (QuerySet.exists_ _ table); reflexivity.
Qed.

(** The outcome and the final state of lines 49 to 79 on a new view
    instance, in the order in which the blocks decide them. *)
Lemma build_queryset_outcome request cache table :
  build_queryset py_int request (new_view cache table) =
  let v := start_value request in
  if auth_ok request then
    match present (query_params request !! "qty") with
    | Some qty =>
        match py_int qty with
        | None => (Raise ValueError, at_ v cache table)
        | Some n =>
            if n <? 0 then (Raise ValueError, at_ v cache table)
            else
              match present (query_params request !! "by_serverid") with
              | Some _ =>
                  (Raise (match sliced v cache n with
                          | RowList _ => AttributeError
                          | _ => TypeError
                          end), at_ (sliced v cache n) cache table)
              | None => (Ok tt, at_ (sliced v cache n) cache table)
              end
        end
    | None =>
        match present (query_params request !! "by_serverid") with
        | Some sid =>
            match py_int sid with
            | None => (Raise (ValidationError (not_found_detail sid)),
                       at_ v cache table)
            | Some i =>
                let q' := QuerySet.add_q (base_query request) (QuerySet.id i) in
                (if QuerySet.exists_ q' table then Ok tt
                 else Raise (ValidationError (not_found_detail sid)),
                 at_ (OwnQuerySet q') cache table)
            end
        | None => (Ok tt, at_ v cache table)
        end
    end
  else (Raise AuthenticationFailed, new_view cache table).
Proof.
  cbv zeta. destruct (auth_ok request) eqn:Hauth.
  2:{ unfold build_queryset. apply bind_raise.
      now rewrite check_authentication_run, Hauth. }
  rewrite build_queryset_start by assumption.
  pose proof (the_query_start_value request) as Hq.
  pose proof (base_query_high_mark request) as Hhm.
  assert (Hv : start_value request = ClassQuerySet \/
               exists q, start_value request = OwnQuerySet q).
  { unfold start_value. destruct (own_query request); eauto. }
  unfold bind. rewrite truncate_qty_run by assumption.
  destruct (present (query_params request !! "qty")) as [qty|].
  - destruct (py_int qty) as [n|]; [|reflexivity].
    destruct (n <? 0); [reflexivity|].
    rewrite filter_serverid_run.
    destruct (present (query_params request !! "by_serverid")); [|reflexivity].
    destruct Hv as [-> | [q ->]]; simpl; [destruct cache|]; reflexivity.
  - rewrite filter_serverid_run, Hq.
    unfold QuerySet.is_sliced. rewrite Hhm. reflexivity.
Qed.

(** *** Running queries that do not mention [member] *)
Lemma count_not_null (us : list Z) :
  List.length (List.filter QuerySet.is_not_null (Some <$> us)) = List.length us.
Proof.
  induction us as [|u us IH]; [reflexivity|].
  rewrite fmap_cons. simpl. now rewrite IH.
Qed.

Lemma count_member_join s :
  List.length (List.filter QuerySet.is_not_null (QuerySet.member_join s)) =
  size (Server.member s).
Proof.
  unfold QuerySet.member_join.
  change (size (Server.member s)) with (List.length (elements (Server.member s))).
  destruct (elements (Server.member s)) as [|u us]; [reflexivity|].
  apply count_not_null.
Qed.

Lemma holds_member_free q s m :
  member_free q = true ->
  forallb (QuerySet.holds s m) (QuerySet.where_ q) = matches q s.
Proof.
  unfold member_free, matches.
  induction (QuerySet.where_ q) as [|l ls IH]; simpl; [reflexivity|].
  intros H. apply andb_true_iff in H as [Hl Hls].
  rewrite IH by assumption. destruct l; try reflexivity. discriminate.
Qed.

Lemma joined_rows_member_free q s :
  member_free q = true ->
  QuerySet.joined_rows q s = if matches q s then QuerySet.member_join s else [].
Proof.
  intros Hq. unfold QuerySet.joined_rows.
  induction (QuerySet.member_join s) as [|m ms IH]; simpl.
  - now destruct (matches q s).
  - rewrite IH, holds_member_free by assumption. now destruct (matches q s).
Qed.

Lemma selected_member_free q s :
  member_free q = true -> QuerySet.selected q s = matches q s.
Proof.
  intros Hq. unfold QuerySet.selected. rewrite joined_rows_member_free by assumption.
  destruct (matches q s); [|reflexivity].
  unfold QuerySet.member_join.
  destruct (elements (Server.member s)); reflexivity.
Qed.

Lemma filter_selected_member_free q table :
  member_free q = true ->
  List.filter (QuerySet.selected q) table = List.filter (matches q) table.
Proof.
  intros Hq. apply List.filter_ext. intros s. now apply selected_member_free.
Qed.

Lemma row_of_member_free q s :
  member_free q = true -> matches q s = true ->
  QuerySet.row_of q s = row_for (QuerySet.num_members q) s.
Proof.
  intros Hq Hs. unfold QuerySet.row_of, row_for, annotated_row, plain_row.
  destruct (QuerySet.num_members q); [|reflexivity].
  now rewrite joined_rows_member_free, Hs, count_member_join.
Qed.

Lemma ordered_perm q (l : list Server.t) : QuerySet.ordered order q l ≡ₚ l.
Proof.
  unfold QuerySet.ordered. destruct (QuerySet.num_members q); [|reflexivity].
  apply QuerySet.group_order_perm.
Qed.

Lemma ordered_plain q (l : list Server.t) :
  QuerySet.num_members q = false -> QuerySet.ordered order q l = l.
Proof. unfold QuerySet.ordered. now intros ->. Qed.

Lemma select_member_free q table :
  member_free q = true ->
  QuerySet.select order q table =
  row_for (QuerySet.num_members q) <$>
    QuerySet.ordered order q (List.filter (matches q) table).
Proof.
  intros Hq. unfold QuerySet.select.
  rewrite filter_selected_member_free by assumption.
  apply list_fmap_ext. intros i s Hs.
  apply row_of_member_free; [assumption|].
  apply list_elem_of_lookup_2 in Hs.
  rewrite ordered_perm in Hs.
  apply list_elem_of_In, List.filter_In in Hs. tauto.
Qed.

Lemma first_n_fmap {A B} (f : A -> B) k (l : list A) :
  QuerySet.first_n k (f <$> l) = f <$> QuerySet.first_n k l.
Proof. rewrite !first_n_take. symmetry. apply fmap_take. Qed.

Lemma execute_member_free q table :
  member_free q = true ->
  QuerySet.execute order q table =
  match QuerySet.high_mark q with
  | Some h =>
      if QuerySet.max_limit <? h then Raise DatabaseError
      else Ok (row_for (QuerySet.num_members q) <$>
                 QuerySet.first_n h
                   (QuerySet.ordered order q (List.filter (matches q) table)))
  | None =>
      Ok (row_for (QuerySet.num_members q) <$>
            QuerySet.ordered order q (List.filter (matches q) table))
  end.
Proof.
  intros Hq. unfold QuerySet.execute. rewrite select_member_free by assumption.
  destruct (QuerySet.high_mark q) as [h|]; [|reflexivity].
  destruct (QuerySet.max_limit <? h); [reflexivity|].
  now rewrite first_n_fmap.
Qed.

Lemma serializer_row_for num (servers : list Server.t) :
  ServerSerializer (row_for num <$> servers) num = view_of num <$> servers.
Proof.
  unfold ServerSerializer. rewrite <- list_fmap_compose.
  apply list_fmap_ext. intros _ s _. destruct num; reflexivity.
Qed.

Lemma serializer_plain_row (servers : list Server.t) :
  ServerSerializer (plain_row <$> servers) false = view_of false <$> servers.
Proof. apply (serializer_row_for false). Qed.

Lemma sublist_List_filter {A} (f : A -> bool) (l : list A) :
  List.filter f l `sublist_of` l.
Proof.
  induction l as [|x l IH]; simpl; [constructor|].
  destruct (f x); now constructor.
Qed.

Lemma first_n_sublist {A} k (l : list A) : QuerySet.first_n k l `sublist_of` l.
Proof. rewrite first_n_take. apply sublist_take. Qed.

Lemma member_free_base_query request : member_free (base_query request) = true.
Proof.
  unfold member_free. rewrite base_query_where.
  destruct (present _); reflexivity.
Qed.

Lemma member_free_add_id q i :
  member_free q = true -> member_free (QuerySet.add_q q (QuerySet.id i)) = true.
Proof.
  unfold member_free. simpl. intros H.
  rewrite forallb_app, H. reflexivity.
Qed.

Lemma matches_base_query request s :
  matches (base_query request) s = category_ok request s.
Proof.
  unfold matches, category_ok. rewrite base_query_where.
  destruct (present (query_params request !! "category")); simpl;
    [apply andb_true_r | reflexivity].
Qed.

Lemma matches_add_id q i s :
  matches (QuerySet.add_q q (QuerySet.id i)) s =
  matches q s && (Server.id s =? i).
Proof.
  unfold matches. simpl. rewrite forallb_app. simpl. now rewrite andb_true_r.
Qed.

Lemma filter_category_ok request table :
  List.filter (matches (base_query request)) table =
  List.filter (category_ok request) table.
Proof. apply List.filter_ext. intros s. apply matches_base_query. Qed.

Lemma filter_category_ok_id request i table :
  List.filter (matches (QuerySet.add_q (base_query request) (QuerySet.id i))) table =
  List.filter (fun s => category_ok request s && (Server.id s =? i)) table.
Proof.
  apply List.filter_ext. intros s. now rewrite matches_add_id, matches_base_query.
Qed.

Lemma existsb_filter {A} (f : A -> bool) (l : list A) :
  existsb f l = match List.filter f l with [] => false | _ :: _ => true end.
Proof.
  induction l as [|x l IH]; simpl; [reflexivity|].
  destruct (f x); [reflexivity | exact IH].
Qed.

Lemma exists_add_id request i table :
  QuerySet.exists_ (QuerySet.add_q (base_query request) (QuerySet.id i)) table =
  match List.filter (fun s => category_ok request s && (Server.id s =? i)) table with
  | [] => false
  | _ :: _ => true
  end.
Proof.
  unfold QuerySet.exists_. simpl. rewrite base_query_high_mark.
  rewrite existsb_filter, filter_selected_member_free, filter_category_ok_id;
    [reflexivity | apply member_free_add_id, member_free_base_query].
Qed.

Lemma own_query_false request :
  own_query request = false ->
  present (query_params request !! "category") = None /\
  with_num_members request = false.
Proof.
  unfold own_query.
  destruct (present (query_params request !! "category")); [discriminate|].
  auto.
Qed.

Lemma own_query_false_all request table :
  own_query request = false ->
  List.filter (category_ok request) table = table.
Proof.
  intros H. apply own_query_false in H as [Hc _].
  unfold category_ok. rewrite Hc.
  induction table as [|s table IH]; simpl; [reflexivity | now rewrite IH].
Qed.

(** *** The serialization and the outcome of a request *)
Lemma serialize_run request v cache table :
  fst (serialize order request (at_ v cache table)) =
  match v with
  | RowList rows =>
      Ok (ServerSerializer (plain_row <$> rows) (with_num_members request))
  | OwnQuerySet q =>
      Result_map (fun rows => ServerSerializer rows (with_num_members request))
        (QuerySet.execute order q table)
  | ClassQuerySet =>
      Ok (ServerSerializer (plain_row <$> default table cache)
            (with_num_members request))
  end.
Proof.
  unfold serialize, bind, get_queryset, queryset_iter. simpl.
  destruct v as [|q|rows]; simpl.
  - destruct cache; reflexivity.
  - destruct (QuerySet.execute order q table); reflexivity.
  - reflexivity.
Qed.

Lemma dispatch_build request cache table :
  dispatch py_int order request cache table =
  match build_queryset py_int request (new_view cache table) with
  | (Ok _, st) => fst (serialize order request st)
  | (Raise e, _) => Raise e
  end.
Proof.
  unfold dispatch. rewrite list_build. unfold bind.
  destruct (build_queryset py_int request (new_view cache table)) as [[[]|e] st];
    reflexivity.
Qed.

Lemma base_query_not_own request :
  own_query request = false -> base_query request = QuerySet.all.
Proof.
  intros H. apply own_query_false in H as [Hc Hn].
  unfold base_query, category_query. rewrite Hn.
  unfold present in Hc.
  destruct (query_params request !! "category") as [c|]; [|reflexivity].
  destruct (nonempty c); [discriminate | reflexivity].
Qed.

(** The outcome of every request on a new view instance, read on the stored
    table and the cached rows. *)
Lemma dispatch_view request cache table :
  dispatch py_int order request cache table =
  let num := with_num_members request in
  let q := base_query request in
  let kept := List.filter (category_ok request) table in
  if auth_ok request then
    match present (query_params request !! "qty") with
    | Some qty =>
        match py_int qty with
        | None => Raise ValueError
        | Some n =>
            if n <? 0 then Raise ValueError
            else
              match cached_rows request cache with
              | Some rows =>
                  match present (query_params request !! "by_serverid") with
                  | Some _ => Raise AttributeError
                  | None => Ok (view_of num <$> QuerySet.first_n n rows)
                  end
              | None =>
                  match present (query_params request !! "by_serverid") with
                  | Some _ => Raise TypeError
                  | None =>
                      if QuerySet.max_limit <? n then Raise DatabaseError
                      else
                        Ok (view_of num <$>
                              QuerySet.first_n n
                                (QuerySet.ordered order
                                   (QuerySet.set_limits q n) kept))
                  end
              end
        end
    | None =>
        match present (query_params request !! "by_serverid") with
        | Some sid =>
            match py_int sid with
            | None => Raise (ValidationError (not_found_detail sid))
            | Some i =>
                match List.filter
                        (fun s => category_ok request s && (Server.id s =? i))
                        table with
                | [] => Raise (ValidationError (not_found_detail sid))
                | found =>
                    Ok (view_of num <$>
                          QuerySet.ordered order
                            (QuerySet.add_q q (QuerySet.id i)) found)
                end
            end
        | None =>
            match cached_rows request cache with
            | Some rows => Ok (view_of num <$> rows)
            | None => Ok (view_of num <$> QuerySet.ordered order q kept)
            end
        end
    end
  else Raise AuthenticationFailed.
Proof.
  cbv zeta. rewrite dispatch_build, build_queryset_outcome. cbv zeta.
  pose proof (member_free_base_query request) as Hfree.
  pose proof (base_query_num_members request) as Hnum.
  pose proof (base_query_high_mark request) as Hhm.
  destruct (auth_ok request); [|reflexivity].
  unfold cached_rows, start_value.
  destruct (present (query_params request !! "qty")) as [qty|].
  - destruct (py_int qty) as [n|]; [|reflexivity].
    destruct (n <? 0) eqn:Hn; [reflexivity|].
    destruct (own_query request) eqn:Hown.
    + destruct (present (query_params request !! "by_serverid")); [reflexivity|].
      rewrite serialize_run. simpl.
      rewrite execute_member_free by exact Hfree. simpl. rewrite Hhm, Hnum.
      destruct (QuerySet.max_limit <? n); [reflexivity|]. simpl.
      rewrite serializer_row_for.
      change (matches (QuerySet.set_limits (base_query request) n))
        with (matches (base_query request)).
      now rewrite filter_category_ok.
    + pose proof (own_query_false _ Hown) as [_ Hn0].
      pose proof (base_query_not_own _ Hown) as Hall.
      destruct cache as [rows|]; simpl.
      * destruct (present (query_params request !! "by_serverid")); [reflexivity|].
        rewrite serialize_run. unfold list_slice. rewrite Hn, Hn0.
        now rewrite serializer_plain_row.
      * destruct (present (query_params request !! "by_serverid")); [reflexivity|].
        rewrite serialize_run.
        rewrite execute_member_free by reflexivity. simpl.
        destruct (QuerySet.max_limit <? n); [reflexivity|]. simpl.
        rewrite Hn0, Hall. rewrite (serializer_row_for false).
        rewrite (own_query_false_all _ table Hown).
        assert (List.filter (matches (QuerySet.set_limits QuerySet.all n)) table
                = table) as ->; [|reflexivity].
        clear. induction table as [|s table IH]; simpl; [reflexivity|].
        now rewrite IH.
  - destruct (present (query_params request !! "by_serverid")) as [sid|].
    + destruct (py_int sid) as [i|]; [|reflexivity].
      cbv zeta. rewrite exists_add_id.
      destruct (List.filter _ table) as [|s found] eqn:Hfound; [reflexivity|].
      rewrite serialize_run.
      rewrite execute_member_free by (apply member_free_add_id, Hfree).
      simpl. rewrite Hhm, Hnum. simpl. rewrite serializer_row_for.
      now rewrite filter_category_ok_id, Hfound.
    + destruct (own_query request) eqn:Hown.
      * rewrite serialize_run, execute_member_free by exact Hfree.
        rewrite Hhm, Hnum. simpl. rewrite serializer_row_for.
        now rewrite filter_category_ok.
      * pose proof (own_query_false _ Hown) as [_ Hn0].
        pose proof (base_query_not_own _ Hown) as Hall.
        rewrite serialize_run, Hn0, serializer_plain_row.
        destruct cache as [rows|]; simpl; [reflexivity|].
        rewrite Hall, ordered_plain by reflexivity.
        now rewrite (own_query_false_all _ table Hown).
Qed.

(** *** The records of an answer *)
Lemma queryset_iter_run st :
  fst (queryset_iter order (self_queryset st) st) =
  match self_queryset st with
  | RowList rows => Ok (plain_row <$> rows)
  | OwnQuerySet q => QuerySet.execute order q (storage st)
  | ClassQuerySet => Ok (plain_row <$> default (storage st) (result_cache st))
  end.
Proof.
  unfold queryset_iter. destruct (self_queryset st) as [|q|rows]; [|reflexivity..].
  destruct (result_cache st); reflexivity.
Qed.

Lemma dispatch_answer request cache table views :
  dispatch py_int order request cache table = Ok views ->
  views = view_of (with_num_members request) <$>
            answer_records py_int order request cache table.
Proof.
  rewrite dispatch_view. cbv zeta. unfold answer_records.
  destruct (auth_ok request); [|discriminate].
  destruct (present (query_params request !! "qty")) as [qty|].
  - destruct (py_int qty) as [n|]; [|discriminate].
    destruct (n <? 0); [discriminate|].
    destruct (cached_rows request cache) as [rows|];
      destruct (present (query_params request !! "by_serverid"));
      try discriminate.
    + now intros [= <-].
    + destruct (QuerySet.max_limit <? n); [discriminate|]. now intros [= <-].
  - destruct (present (query_params request !! "by_serverid")) as [sid|].
    + destruct (py_int sid) as [i|]; [|discriminate].
      destruct (List.filter _ table) as [|s found]; [discriminate|].
      now intros [= <-].
    + destruct (cached_rows request cache); now intros [= <-].
Qed.

Lemma served_answer request cache table views :
  dispatch py_int order request cache table = Ok views ->
  served_rows py_int order request cache table =
  Ok (row_for (with_num_members request) <$>
        answer_records py_int order request cache table).
Proof.
  rewrite dispatch_view. cbv zeta.
  unfold served_rows, answer_records. rewrite build_queryset_outcome. cbv zeta.
  pose proof (member_free_base_query request) as Hfree.
  pose proof (base_query_num_members request) as Hnum.
  pose proof (base_query_high_mark request) as Hhm.
  destruct (auth_ok request); [|discriminate].
  unfold cached_rows, start_value.
  destruct (present (query_params request !! "qty")) as [qty|].
  - destruct (py_int qty) as [n|]; [|discriminate].
    destruct (n <? 0) eqn:Hn; [discriminate|].
    destruct (own_query request) eqn:Hown.
    + destruct (present (query_params request !! "by_serverid")); [discriminate|].
      destruct (QuerySet.max_limit <? n) eqn:Hmax; [discriminate|]. intros _.
      rewrite queryset_iter_run. simpl.
      rewrite execute_member_free by exact Hfree. simpl.
      rewrite Hhm, Hnum, Hmax.
      change (matches (QuerySet.set_limits (base_query request) n))
        with (matches (base_query request)).
      now rewrite filter_category_ok.
    + pose proof (own_query_false _ Hown) as [_ Hn0].
      pose proof (base_query_not_own _ Hown) as Hall.
      destruct cache as [rows|]; simpl.
      * destruct (present (query_params request !! "by_serverid")); [discriminate|].
        intros _. rewrite queryset_iter_run. simpl. unfold list_slice.
        now rewrite Hn, Hn0.
      * destruct (present (query_params request !! "by_serverid")); [discriminate|].
        destruct (QuerySet.max_limit <? n) eqn:Hmax; [discriminate|]. intros _.
        rewrite queryset_iter_run. simpl.
        rewrite execute_member_free by reflexivity. simpl.
        rewrite Hmax, Hn0, Hall. rewrite (own_query_false_all _ table Hown).
        assert (List.filter (matches (QuerySet.set_limits QuerySet.all n)) table
                = table) as ->; [|reflexivity].
        clear. induction table as [|s table IH]; simpl; [reflexivity|].
        now rewrite IH.
  - destruct (present (query_params request !! "by_serverid")) as [sid|].
    + destruct (py_int sid) as [i|]; [|discriminate].
      cbv zeta. rewrite exists_add_id.
      destruct (List.filter _ table) as [|s found] eqn:Hfound; [discriminate|].
      intros _. rewrite queryset_iter_run. simpl.
      rewrite execute_member_free by (apply member_free_add_id, Hfree).
      simpl. rewrite Hhm, Hnum.
      now rewrite filter_category_ok_id, Hfound.
    + intros _. rewrite queryset_iter_run. simpl.
      destruct (own_query request) eqn:Hown.
      * rewrite execute_member_free by exact Hfree.
        rewrite Hhm, Hnum. now rewrite filter_category_ok.
      * pose proof (own_query_false _ Hown) as [_ Hn0].
        rewrite Hn0.
        destruct cache as [rows|]; simpl; [reflexivity|].
        rewrite (base_query_not_own _ Hown), ordered_plain by reflexivity.
        now rewrite (own_query_false_all _ table Hown).
Qed.

(** The records of an answer are drawn from the records the request ranges
    over, each at most as often as it occurs there, and pass the category
    step. *)
Lemma answer_records_scanned request cache table views :
  dispatch py_int order request cache table = Ok views ->
  answer_records py_int order request cache table ⊆+ scanned request cache table.
Proof.
  rewrite dispatch_view. cbv zeta.
  unfold answer_records, scanned, cached_rows.
  assert (Hsub : forall q k (l : list Server.t) f,
    QuerySet.first_n k (QuerySet.ordered order q (List.filter f l)) ⊆+ l).
  { intros q k l f. etrans; [apply sublist_submseteq, first_n_sublist|].
    rewrite ordered_perm. apply sublist_submseteq, sublist_List_filter. }
  assert (Hsub' : forall q (l : list Server.t) f,
    QuerySet.ordered order q (List.filter f l) ⊆+ l).
  { intros q l f. rewrite ordered_perm.
    apply sublist_submseteq, sublist_List_filter. }
  destruct (auth_ok request); [|discriminate].
  destruct (present (query_params request !! "qty")) as [qty|].
  - destruct (py_int qty) as [n|]; [|discriminate].
    destruct (n <? 0); [discriminate|].
    destruct (own_query request); [intros _; destruct cache; apply Hsub|].
    destruct cache as [rows|]; [|intros _; apply Hsub].
    destruct (present (query_params request !! "by_serverid")); [discriminate|].
    intros _. apply sublist_submseteq, first_n_sublist.
  - intros _.
    destruct (present (query_params request !! "by_serverid")) as [sid|].
    + destruct (py_int sid) as [i|]; [|apply submseteq_nil_l].
      destruct cache; [destruct (own_query request)|]; apply Hsub'.
    + destruct (own_query request); [destruct cache; apply Hsub'|].
      destruct cache as [rows|]; [reflexivity | apply Hsub'].
Qed.

Lemma answer_records_category_ok request cache table :
  Forall (fun s => category_ok request s = true)
    (answer_records py_int order request cache table).
Proof.
  assert (Hfil : forall q (f : Server.t -> bool),
    (forall s, f s = true -> category_ok request s = true) ->
    Forall (fun s => category_ok request s = true)
      (QuerySet.ordered order q (List.filter f table))).
  { intros q f Hf. rewrite ordered_perm. apply Forall_forall. intros s Hs.
    apply list_elem_of_In, List.filter_In in Hs as [_ Hs]. now apply Hf. }
  assert (Hnone : forall rows : list Server.t,
    cached_rows request cache = Some rows ->
    Forall (fun s => category_ok request s = true) rows).
  { unfold cached_rows. intros rows Hrows.
    destruct (own_query request) eqn:Hown; [discriminate|].
    apply own_query_false in Hown as [Hc _].
    apply Forall_forall. intros s _. unfold category_ok. now rewrite Hc. }
  assert (Hfirst : forall k (l : list Server.t),
    Forall (fun s => category_ok request s = true) l ->
    Forall (fun s => category_ok request s = true) (QuerySet.first_n k l)).
  { intros k l Hl. rewrite first_n_take. now apply Forall_take. }
  unfold answer_records.
  destruct (present (query_params request !! "qty")) as [qty|].
  - destruct (py_int qty) as [n|]; [|constructor].
    destruct (cached_rows request cache) as [rows|] eqn:Hrows.
    + apply Hfirst. now apply Hnone.
    + apply Hfirst, Hfil. auto.
  - destruct (present (query_params request !! "by_serverid")) as [sid|].
    + destruct (py_int sid) as [i|]; [|constructor].
      apply Hfil. intros s Hs. apply andb_true_iff in Hs. tauto.
    + destruct (cached_rows request cache) as [rows|] eqn:Hrows.
      * now apply Hnone.
      * apply Hfil. auto.
Qed.

(** *** Requests that differ in one parameter *)
Lemma without_lookup_ne k k' request :
  k <> k' ->
  query_params (without k request) !! k' = query_params request !! k'.
Proof. intros Hne. unfold without. simpl. now apply lookup_delete_ne. Qed.

Lemma without_lookup_eq k request :
  query_params (without k request) !! k = None.
Proof. unfold without. simpl. apply lookup_delete_eq. Qed.

Lemma present_nonempty s : nonempty s = true -> present (Some s) = Some s.
Proof. simpl. now intros ->. Qed.

Lemma present_Some_inv v s :
  present v = Some s -> v = Some s /\ nonempty s = true.
Proof.
  destruct v as [s'|]; simpl; [|discriminate].
  destruct (nonempty s') eqn:Hs'; [|discriminate].
  intros [= ->]. auto.
Qed.

(** *** The stored table is only read *)
Lemma read_only_ret {A} (a : A) : read_only (ret a).
Proof. intros st. reflexivity. Qed.

Lemma read_only_raise {A} e : read_only (@raise A e).
Proof. intros st. reflexivity. Qed.

Lemma read_only_lift {A} (r : Result A) : read_only (lift r).
Proof. intros st. reflexivity. Qed.

Lemma read_only_bind {A B} (m : M A) (k : A -> M B) :
  read_only m -> (forall a, read_only (k a)) -> read_only (bind m k).
Proof.
  intros Hm Hk st. unfold bind. specialize (Hm st).
  destruct (m st) as [[a|e] st']; simpl in *; [|assumption].
  now rewrite Hk.
Qed.

Lemma read_only_when b m : read_only m -> read_only (when b m).
Proof. intros Hm. destruct b; [assumption | apply read_only_ret]. Qed.

Lemma read_only_if_truthy v body :
  (forall s, read_only (body s)) -> read_only (if_truthy v body).
Proof.
  intros Hb. destruct v as [s|]; simpl; [|apply read_only_ret].
  destruct (nonempty s); [apply Hb | apply read_only_ret].
Qed.

Lemma read_only_try_except {A} (body handler : M A) :
  read_only body -> read_only handler ->
  read_only (try_except_ValueError body handler).
Proof.
  intros Hb Hh st. unfold try_except_ValueError. specialize (Hb st).
  destruct (body st) as [[a|[]] st']; simpl in *; try assumption.
  now rewrite Hh.
Qed.

Lemma read_only_get_queryset : read_only get_queryset.
Proof. intros st. reflexivity. Qed.

Lemma read_only_set_queryset q : read_only (set_queryset q).
Proof. intros st. reflexivity. Qed.

Lemma read_only_queryset_getitem q k : read_only (queryset_getitem q k).
Proof.
  intros st. unfold queryset_getitem.
  destruct q as [|q|rows]; try reflexivity.
  destruct (QuerySet.getitem QuerySet.all k); [|reflexivity].
  destruct (result_cache st); reflexivity.
Qed.

Lemma read_only_queryset_exists q : read_only (queryset_exists q).
Proof.
  intros st. unfold queryset_exists.
  destruct q as [|q|rows]; try reflexivity.
  destruct (result_cache st); reflexivity.
Qed.

Lemma read_only_queryset_iter q : read_only (queryset_iter order q).
Proof.
  intros st. unfold queryset_iter.
  destruct q as [|q|rows]; try reflexivity.
  destruct (result_cache st); reflexivity.
Qed.

Lemma read_only_int_of s : read_only (int_of py_int s).
Proof. unfold int_of. destruct (py_int s); [apply read_only_ret | apply read_only_raise]. Qed.

Create HintDb read_only.
#[local] Hint Resolve read_only_ret read_only_raise read_only_lift read_only_when
  read_only_if_truthy read_only_try_except read_only_get_queryset
  read_only_set_queryset read_only_queryset_getitem read_only_queryset_exists
  read_only_queryset_iter read_only_int_of : read_only.
#[local] Hint Extern 2 (read_only (bind _ _)) =>
  apply read_only_bind; [| intros ?] : read_only.

(** C9: whatever the request and whatever the outcome, the stored table after
    the handler has run is the stored table before it: every block only
    reads [storage], the only assignments are to [self.queryset] (and the
    shared query set keeps the rows it has read). *)
Theorem list_leaves_storage_unchanged request st :
  storage (snd (ServerListViewSet.list py_int order request st)) = storage st.
Proof.
  revert st. change (read_only (ServerListViewSet.list py_int order request)).
  unfold ServerListViewSet.list. cbv zeta.
  auto 30 with read_only.
Qed.

(** C3: a request with [by_user=true] and no authenticated user is refused
    with [AuthenticationFailed] whatever its other parameters are, and the
    state is the one the handler started in: no filter has been applied to
    [self.queryset], no record is returned. *)
Theorem by_user_requires_authentication request st :
  query_params request !! "by_user" = Some "true" ->
  is_authenticated (user request) = false ->
  ServerListViewSet.list py_int order request st = (Raise AuthenticationFailed, st).
Proof.
  intros Hby Hanon. rewrite list_build.
  apply bind_raise. unfold build_queryset.
  apply bind_raise. rewrite check_authentication_run.
  unfold auth_ok, by_user. rewrite Hby, Hanon. reflexivity.
Qed.

(** C10: an empty [category], [qty] or [by_serverid] is treated like an
    absent one: the handler does on the request what it does on the same
    request without the parameter (same outcome, same final state). *)
Theorem empty_parameter_is_absent request k st :
  k ∈ ["category"; "qty"; "by_serverid"] ->
  query_params request !! k = Some "" ->
  ServerListViewSet.list py_int order request st =
  ServerListViewSet.list py_int order (without k request) st.
Proof.
  intros Hk Hempty.
  unfold ServerListViewSet.list. cbv zeta.
  repeat (apply elem_of_cons in Hk as [-> | Hk]);
    [ | | | now apply elem_of_nil in Hk ].
  all: rewrite without_lookup_eq, Hempty, !without_lookup_ne by discriminate.
  all: reflexivity.
Qed.

Lemma scanned_own request cache table :
  own_query request = true -> scanned request cache table = table.
Proof. intros H. unfold scanned. rewrite H. now destruct cache. Qed.

(** C4: when [with_num_members=true], the records handed to the serializer
    are records of the table, each annotated with the number of its members,
    and the returned views are their views, each with [num_members] equal to
    that number.  (The order is the database's.) *)
Theorem num_members_counts_members request cache table views :
  query_params request !! "with_num_members" = Some "true" ->
  dispatch py_int order request cache table = Ok views ->
  exists servers,
    servers ⊆+ table /\
    served_rows py_int order request cache table =
      Ok (annotated_row <$> servers) /\
    views = view_with_count <$> servers.
Proof.
  intros Hnum Hok.
  assert (Hw : with_num_members request = true)
    by (unfold with_num_members; now rewrite Hnum).
  assert (Hown : own_query request = true).
  { unfold own_query. rewrite Hw. now destruct (present _). }
  exists (answer_records py_int order request cache table).
  split; [|split].
  - pose proof (answer_records_scanned _ _ _ _ Hok) as Hsub.
    now rewrite scanned_own in Hsub.
  - rewrite (served_answer _ _ _ _ Hok), Hw. reflexivity.
  - rewrite (dispatch_answer _ _ _ _ Hok), Hw. reflexivity.
Qed.

Lemma length_ordered q (l : list Server.t) :
  List.length (QuerySet.ordered order q l) = List.length l.
Proof. apply Permutation_length, ordered_perm. Qed.


(** C7: with a non-empty [category], every record handed to the serializer
    and every returned view has that category; and when no stored record has
    it, the handler returns the empty sequence as soon as no other parameter
    makes it raise (and can return nothing else). *)
Theorem category_filter request cache table c :
  query_params request !! "category" = Some c ->
  nonempty c = true ->
  (forall views,
     dispatch py_int order request cache table = Ok views ->
     (exists rows,
        served_rows py_int order request cache table = Ok rows /\
        Forall (fun r => Server.category (QuerySet.server r) = c) rows) /\
     Forall (fun v => view_category v = c) views) /\
  (Forall (fun s => Server.category s <> c) table ->
   (forall views,
      dispatch py_int order request cache table = Ok views -> views = []) /\
   (auth_ok request = true ->
    qty_ok py_int request = true ->
    present (query_params request !! "by_serverid") = None ->
    dispatch py_int order request cache table = Ok [])).
Proof.
  intros Hc Hne.
  assert (Hp : present (query_params request !! "category") = Some c)
    by (rewrite Hc; now apply present_nonempty).
  assert (Hown : own_query request = true) by (unfold own_query; now rewrite Hp).
  assert (Hcat : Forall (fun s => Server.category s = c)
                   (answer_records py_int order request cache table)).
  { eapply Forall_impl; [apply answer_records_category_ok|].
    intros s. unfold category_ok. rewrite Hp. apply String.eqb_eq. }
  split; [|intros Hnone; split].
  - intros views Hok. split.
    + eexists. split; [apply (served_answer _ _ _ _ Hok)|].
      apply Forall_fmap. eapply Forall_impl; [exact Hcat|].
      intros s Hs. simpl. unfold row_for.
      now destruct (with_num_members request).
    + rewrite (dispatch_answer _ _ _ _ Hok).
      apply Forall_fmap. eapply Forall_impl; [exact Hcat|]. now intros s Hs.
  - intros views Hok.
    pose proof (answer_records_scanned _ _ _ _ Hok) as Hsub.
    rewrite scanned_own in Hsub by assumption.
    rewrite (dispatch_answer _ _ _ _ Hok).
    destruct (answer_records py_int order request cache table) as [|s servers];
      [reflexivity|].
    exfalso. apply Forall_cons in Hcat as [Hs _].
    rewrite Forall_forall in Hnone. apply (Hnone s); [|exact Hs].
    eapply elem_of_submseteq; [|exact Hsub]. now left.
  - intros Hauth Hqty Hsid.
    assert (Hnil : List.filter (category_ok request) table = []).
    { clear -Hnone Hp. induction table as [|s table IH]; [reflexivity|].
      apply Forall_cons in Hnone as [Hs Hnone]. simpl.
      unfold category_ok at 1. rewrite Hp.
      apply String.eqb_neq in Hs. rewrite Hs. now apply IH. }
    assert (Hord : forall q, QuerySet.ordered order q [] = []).
    { intros q. apply Permutation_nil_r. apply ordered_perm. }
    rewrite dispatch_view. cbv zeta.
    unfold cached_rows. rewrite Hauth, Hsid, Hown, Hnil, !Hord.
    unfold qty_ok in Hqty. unfold present.
    destruct (query_params request !! "qty") as [qty|]; [|reflexivity].
    destruct (nonempty qty); [|reflexivity].
    destruct (py_int qty) as [n|]; [|discriminate].
    apply andb_true_iff in Hqty as [H0 Hmax].
    assert ((n <? 0) = false) as -> by lia.
    assert ((QuerySet.max_limit <? n) = false) as -> by lia.
    now rewrite Hord, first_n_take, take_nil.
Qed.

(** C8, amended: a non-empty [qty] that does not parse as an integer, on a
    request that passes the guard of line 49, makes the handler leave with
    the [ValueError] of [int(qty)], which is neither of the two user-facing
    errors. *)
Theorem qty_parse_failure_is_unhandled request cache table q :
  query_params request !! "qty" = Some q ->
  nonempty q = true ->
  py_int q = None ->
  auth_ok request = true ->
  dispatch py_int order request cache table = Raise ValueError /\
  user_facing ValueError = false.
Proof.
  intros Hq Hne Hparse Hauth. split; [|reflexivity].
  rewrite dispatch_view. cbv zeta.
  rewrite Hauth, Hq. simpl. now rewrite Hne, Hparse.
Qed.

(** C2, amended: a non-empty [by_serverid] that does not parse as an integer
    or is the identifier of no stored record, on a request that passes the
    guard of line 49 and has no (or an empty) [qty], makes the handler raise
    [ValidationError] with the detail "Server with id {by_serverid} not
    found", the raw value interpolated. *)
Theorem by_serverid_not_found request cache table sid :
  query_params request !! "by_serverid" = Some sid ->
  nonempty sid = true ->
  auth_ok request = true ->
  present (query_params request !! "qty") = None ->
  (py_int sid = None \/
   forall s, s ∈ table -> py_int sid <> Some (Server.id s)) ->
  dispatch py_int order request cache table =
  Raise (ValidationError ("Server with id " ++ sid ++ " not found")).
Proof.
  intros Hsid Hne Hauth Hqty Hbad.
  rewrite dispatch_view. cbv zeta.
  rewrite Hauth, Hqty, Hsid. simpl. rewrite Hne.
  destruct (py_int sid) as [i|] eqn:Hparse; [|reflexivity].
  destruct Hbad as [|Hnone]; [discriminate|].
  destruct (List.filter _ table) as [|s found] eqn:Hfound; [reflexivity|].
  exfalso.
  assert (Hs : In s (List.filter
                  (fun s => category_ok request s && (Server.id s =? i)) table))
    by (rewrite Hfound; now left).
  apply List.filter_In in Hs as [Hs Hsel].
  apply andb_true_iff in Hsel as [_ Hid]. apply Z.eqb_eq in Hid.
  apply (Hnone s); [now apply list_elem_of_In | now rewrite Hid].
Qed.

(** *** Further properties of the handler *)
Lemma filter_all {A} (f : A -> bool) (l : list A) :
  (forall x, f x = true) -> List.filter f l = l.
Proof.
  intros Hf. induction l as [|x l IH]; simpl; [reflexivity|].
  now rewrite Hf, IH.
Qed.

Lemma filter_none {A} (f : A -> bool) (l : list A) :
  (forall x, In x l -> f x = false) -> List.filter f l = [].
Proof.
  intros Hf. induction l as [|x l IH]; simpl; [reflexivity|].
  rewrite (Hf x) by now left. apply IH. intros y Hy. apply Hf. now right.
Qed.

Lemma auth_ok_without k request :
  k <> "by_user" -> auth_ok (without k request) = auth_ok request.
Proof.
  intros Hk. unfold auth_ok, by_user. now rewrite without_lookup_ne.
Qed.

Lemma category_ok_without k request s :
  k <> "category" -> category_ok (without k request) s = category_ok request s.
Proof. intros Hk. unfold category_ok. now rewrite without_lookup_ne. Qed.

Lemma drop_count_view_of num (servers : list Server.t) :
  drop_count <$> (view_of num <$> servers) = view_of false <$> servers.
Proof. rewrite <- list_fmap_compose. reflexivity. Qed.

(** With distinct identifiers, at most one record passes a test on the
    identifier. *)
Lemma filter_id_NoDup (f : Server.t -> bool) (i : Z) (table : list Server.t) :
  NoDup (Server.id <$> table) ->
  (List.length (List.filter (fun s => f s && (Server.id s =? i)%Z) table) <= 1)%nat.
Proof.
  induction table as [|s table IH]; [simpl; lia|].
  rewrite fmap_cons. intros Hnd. apply NoDup_cons in Hnd as [Hs Hnd].
  cbn [List.filter].
  destruct (f s && (Server.id s =? i)) eqn:Hsel; [|now apply IH].
  apply andb_true_iff in Hsel as [_ Hid]. apply Z.eqb_eq in Hid.
  rewrite filter_none; [simpl; lia|].
  intros s' Hs'. apply andb_false_iff. right. apply Z.eqb_neq. intros Heq.
  apply Hs. apply list_elem_of_fmap. exists s'. split; [congruence|].
  now apply list_elem_of_In.
Qed.

(** X1: a non-empty [qty] that parses as a negative integer makes a request
    that passes the guard of line 49 fail with the [ValueError] of the
    slice, which nothing catches. *)
Theorem negative_qty_is_unhandled request cache table q n :
  query_params request !! "qty" = Some q ->
  nonempty q = true ->
  py_int q = Some n ->
  n < 0 ->
  auth_ok request = true ->
  dispatch py_int order request cache table = Raise ValueError.
Proof.
  intros Hq Hne Hparse Hneg Hauth. rewrite dispatch_view. cbv zeta.
  rewrite Hauth, Hq, (present_nonempty _ Hne), Hparse.
  now assert ((n <? 0) = true) as -> by lia.
Qed.

(** X2: the handler reads five query parameters only: adding or changing any
    other parameter changes neither the outcome nor the final state. *)
Theorem unknown_parameter_is_ignored request k v st :
  k ∉ known_parameters ->
  ServerListViewSet.list py_int order (with_param k v request) st =
  ServerListViewSet.list py_int order request st.
Proof.
  intros Hk.
  assert (Hne : forall k', k' ∈ known_parameters ->
                  query_params (with_param k v request) !! k' =
                  query_params request !! k').
  { intros k' Hk'. unfold with_param. simpl. apply lookup_insert_ne.
    intros ->. contradiction. }
  unfold ServerListViewSet.list. cbv zeta.
  rewrite !Hne by (unfold known_parameters; rewrite !elem_of_cons; tauto).
  reflexivity.
Qed.

(** X3: [by_user] and [with_num_members] only count when they are exactly
    "true": with any other value the handler does what it does without the
    parameter. *)
Theorem flag_other_than_true_is_absent request k st :
  k ∈ ["by_user"; "with_num_members"] ->
  query_params request !! k <> Some "true" ->
  ServerListViewSet.list py_int order request st =
  ServerListViewSet.list py_int order (without k request) st.
Proof.
  intros Hk Hv. unfold ServerListViewSet.list. cbv zeta.
  repeat (apply elem_of_cons in Hk as [-> | Hk]);
    [ | | now apply elem_of_nil in Hk ].
  all: rewrite without_lookup_eq, !without_lookup_ne by discriminate.
  all: rewrite (bool_decide_eq_false_2 _ Hv).
  all: rewrite (bool_decide_eq_false_2 (None = Some "true")) by discriminate.
  all: reflexivity.
Qed.

(** X4: the membership block changes nothing for an authenticated user: the
    handler does on a request with [by_user] what it does without it (same
    outcome, same final state). *)
Lemma by_user_has_no_effect request st :
  is_authenticated (user request) = true ->
  ServerListViewSet.list py_int order request st =
  ServerListViewSet.list py_int order (without "by_user" request) st.
Proof.
  intros Hauth. unfold ServerListViewSet.list. cbv zeta.
  rewrite without_lookup_eq, !without_lookup_ne by discriminate.
  change (user (without "by_user" request)) with (user request).
  rewrite Hauth. rewrite (bool_decide_eq_false_2 (None = Some "true")) by discriminate.
  destruct (bool_decide (query_params request !! "by_user" = Some "true")); reflexivity.
Qed.

(** X5: the handler refuses a request with [AuthenticationFailed] exactly
    when [by_user] is "true" and the user is not authenticated. *)
Theorem authentication_failed_iff request cache table :
  dispatch py_int order request cache table = Raise AuthenticationFailed <->
  query_params request !! "by_user" = Some "true" /\
  is_authenticated (user request) = false.
Proof.
  rewrite dispatch_view. cbv zeta. unfold auth_ok, by_user.
  destruct (decide (query_params request !! "by_user" = Some "true")) as [Hby|Hby].
  - rewrite (bool_decide_eq_true_2 _ Hby).
    destruct (is_authenticated (user request)); simpl.
    + split; [|intros [_ ?]; discriminate].
      repeat case_match; discriminate.
    + tauto.
  - rewrite (bool_decide_eq_false_2 _ Hby). simpl.
    split; [|intros [? _]; contradiction].
    repeat case_match; discriminate.
Qed.

(** X6: a [ValidationError] can only come from the [by_serverid] block: the
    parameter is then non-empty, the detail is "Server with id {by_serverid}
    not found", and the request has no (or an empty) [qty]. *)
Theorem validation_error_comes_from_by_serverid request cache table detail :
  dispatch py_int order request cache table = Raise (ValidationError detail) ->
  exists sid,
    query_params request !! "by_serverid" = Some sid /\
    nonempty sid = true /\
    detail = "Server with id " ++ sid ++ " not found" /\
    present (query_params request !! "qty") = None /\
    auth_ok request = true.
Proof.
  rewrite dispatch_view. cbv zeta.
  destruct (auth_ok request); [|discriminate].
  destruct (present (query_params request !! "qty")) as [qty|].
  { repeat case_match; discriminate. }
  destruct (present (query_params request !! "by_serverid")) as [sid|] eqn:Hsid.
  2:{ repeat case_match; discriminate. }
  apply present_Some_inv in Hsid as [Hsid Hne].
  intros H. exists sid. repeat split; try assumption.
  repeat case_match; try discriminate; now injection H as <-.
Qed.

(** X7: an exception that is not user-facing can only come from [qty]: the
    request then passes the guard of line 49 and has a non-empty [qty] that
    does not parse, or is negative, or comes with a non-empty [by_serverid],
    or exceeds the largest LIMIT of the database. *)
Theorem unhandled_error_comes_from_qty request cache table e :
  dispatch py_int order request cache table = Raise e ->
  user_facing e = false ->
  auth_ok request = true /\
  exists q,
    present (query_params request !! "qty") = Some q /\
    (py_int q = None \/
     exists n, py_int q = Some n /\
       (n < 0 \/
        present (query_params request !! "by_serverid") <> None \/
        QuerySet.max_limit < n)).
Proof.
  rewrite dispatch_view. cbv zeta.
  destruct (auth_ok request); [|intros [= <-]; discriminate].
  destruct (present (query_params request !! "qty")) as [qty|].
  - intros He _. split; [reflexivity|]. exists qty. split; [reflexivity|].
    destruct (py_int qty) as [n|] eqn:Hparse; [|now left].
    right. exists n. split; [reflexivity|].
    destruct (n <? 0) eqn:Hn; [left; lia|]. right.
    destruct (present (query_params request !! "by_serverid")); [now left|].
    right.
    destruct (cached_rows request cache); [discriminate|].
    destruct (QuerySet.max_limit <? n) eqn:Hmax; [lia | discriminate].
  - intros He Hu. exfalso.
    repeat case_match; try discriminate; injection He as <-; discriminate.
Qed.

(** X8: a request that uses none of [category], [qty] and [by_serverid] (and
    passes the guard of line 49) is answered, when it asks for the count,
    with all stored records in the order of the database; and otherwise with
    the rows the shared query set has cached or, when it has none, with all
    stored records in table order, which the shared query set then keeps
    for the requests to come. *)
Theorem no_filter_answer request cache table :
  auth_ok request = true ->
  present (query_params request !! "category") = None ->
  present (query_params request !! "qty") = None ->
  present (query_params request !! "by_serverid") = None ->
  dispatch py_int order request cache table =
    Ok (if with_num_members request
        then view_of true <$>
               QuerySet.group_order order (QuerySet.annotate QuerySet.all) table
        else view_of false <$> default table cache) /\
  result_cache
    (snd (ServerListViewSet.list py_int order request (new_view cache table))) =
    (if with_num_members request then cache else Some (default table cache)).
Proof.
  intros Hauth Hcat Hqty Hsid.
  assert (Hq : with_num_members request = true ->
               base_query request = QuerySet.annotate QuerySet.all).
  { intros Hn. unfold base_query, category_query. rewrite Hn.
    unfold present in Hcat.
    destruct (query_params request !! "category") as [c|]; [|reflexivity].
    destruct (nonempty c); [discriminate | reflexivity]. }
  split.
  - rewrite dispatch_view. cbv zeta.
    unfold cached_rows, own_query. rewrite Hauth, Hqty, Hsid, Hcat.
    rewrite filter_all by (intros s; unfold category_ok; now rewrite Hcat).
    destruct (with_num_members request) eqn:Hn.
    + rewrite Hq by reflexivity. reflexivity.
    + destruct cache; simpl; [reflexivity|].
      rewrite ordered_plain; [reflexivity|].
      now rewrite base_query_num_members.
  - rewrite list_build. unfold bind.
    rewrite build_queryset_outcome. cbv zeta.
    rewrite Hauth, Hqty, Hsid. unfold start_value, own_query. rewrite Hcat.
    destruct (with_num_members request) eqn:Hn.
    + unfold serialize, bind, get_queryset, queryset_iter. simpl.
      now destruct (QuerySet.execute order (base_query request) table).
    + unfold serialize, bind, get_queryset, queryset_iter. simpl.
      now destruct cache.
Qed.

(** X9: whatever the parameters, an answer consists of the views of records
    the request ranges over (the stored records, or the cached rows of the
    shared query set), none more often than it occurs there, with the member
    count exactly when [with_num_members] is "true". *)
Theorem answer_is_drawn_from_the_records request cache table views :
  dispatch py_int order request cache table = Ok views ->
  exists servers,
    servers ⊆+ scanned request cache table /\
    views = view_of (with_num_members request) <$> servers.
Proof.
  intros Hok. exists (answer_records py_int order request cache table).
  split; [eapply answer_records_scanned, Hok | apply dispatch_answer, Hok].
Qed.

(** X10: with a non-empty [category] and neither [qty] nor [by_serverid], the
    answer is every stored record of that category, none left out: in table
    order, or in the order of the database when the count is asked for. *)
Theorem category_returns_all_matching request cache table c :
  query_params request !! "category" = Some c ->
  nonempty c = true ->
  auth_ok request = true ->
  present (query_params request !! "qty") = None ->
  present (query_params request !! "by_serverid") = None ->
  let matching :=
    List.filter (fun s => String.eqb (Server.category s) c) table in
  dispatch py_int order request cache table =
  Ok (view_of (with_num_members request) <$>
        (if with_num_members request
         then QuerySet.group_order order (base_query request) matching
         else matching)).
Proof.
  intros Hc Hne Hauth Hqty Hsid. rewrite dispatch_view. cbv zeta.
  assert (Hp : present (query_params request !! "category") = Some c)
    by (rewrite Hc; now apply present_nonempty).
  unfold cached_rows, own_query. rewrite Hauth, Hqty, Hsid, Hp.
  unfold QuerySet.ordered. rewrite base_query_num_members.
  assert (List.filter (category_ok request) table =
          List.filter (fun s => String.eqb (Server.category s) c) table) as ->.
  { apply List.filter_ext. intros s. unfold category_ok. now rewrite Hp. }
  reflexivity.
Qed.

(** X11: a non-empty [by_serverid] that parses as the integer [i], on a
    request that passes the guard of line 49 and has no (or an empty) [qty],
    is answered with the stored records of identifier [i] that pass the
    category step, and with the "not found" [ValidationError] when there is
    none (also when a record of that identifier exists in another
    category). *)
Theorem by_serverid_selects_by_id request cache table sid i :
  query_params request !! "by_serverid" = Some sid ->
  nonempty sid = true ->
  py_int sid = Some i ->
  auth_ok request = true ->
  present (query_params request !! "qty") = None ->
  dispatch py_int order request cache table =
  match List.filter (fun s => category_ok request s && (Server.id s =? i)) table with
  | [] => Raise (ValidationError ("Server with id " ++ sid ++ " not found"))
  | found =>
      Ok (view_of (with_num_members request) <$>
            (if with_num_members request
             then QuerySet.group_order order
                    (QuerySet.add_q (base_query request) (QuerySet.id i)) found
             else found))
  end.
Proof.
  intros Hsid Hne Hparse Hauth Hqty. rewrite dispatch_view. cbv zeta.
  rewrite Hauth, Hqty, Hsid, (present_nonempty _ Hne), Hparse.
  unfold QuerySet.ordered.
  change (QuerySet.num_members
            (QuerySet.add_q (base_query request) (QuerySet.id i)))
    with (QuerySet.num_members (base_query request)).
  now rewrite base_query_num_members.
Qed.

(** X12: when the stored identifiers are distinct, a request with a non-empty
    [by_serverid] that is answered is answered with exactly one record, the
    one of that identifier. *)
Theorem by_serverid_returns_one_record request cache table sid views :
  NoDup (Server.id <$> table) ->
  query_params request !! "by_serverid" = Some sid ->
  nonempty sid = true ->
  dispatch py_int order request cache table = Ok views ->
  exists s,
    s ∈ table /\ py_int sid = Some (Server.id s) /\
    views = [view_of (with_num_members request) s].
Proof.
  intros Hnd Hsid Hne. rewrite dispatch_view. cbv zeta.
  rewrite Hsid, (present_nonempty _ Hne). intros Hok.
  destruct (auth_ok request); [|discriminate].
  destruct (present (query_params request !! "qty")) as [qty|].
  { repeat case_match; discriminate. }
  destruct (py_int sid) as [i|]; [|discriminate].
  pose proof (filter_id_NoDup (category_ok request) i table Hnd) as Hlen.
  destruct (List.filter _ table) as [|s [|s' found]] eqn:Hfound;
    [discriminate | | simpl in Hlen; lia].
  injection Hok as <-. exists s.
  assert (Hs : In s (List.filter
                  (fun s => category_ok request s && (Server.id s =? i)) table))
    by (rewrite Hfound; now left).
  apply List.filter_In in Hs as [Hs Hsel].
  apply andb_true_iff in Hsel as [_ Hid]. apply Z.eqb_eq in Hid.
  split; [now apply list_elem_of_In|]. split; [now rewrite Hid|].
  now rewrite (proj1 (Permutation_singleton_r _ _) (ordered_perm _ [s])).
Qed.

(** X13: on a request that is answered from storage with or without the
    count, asking for the member count changes neither the error nor the
    number of records returned; without [qty] the same records are returned
    (with [qty] the limit may keep other records, as the order may differ). *)
Theorem with_num_members_keeps_selection request cache table :
  cache = None \/ present (query_params request !! "category") <> None ->
  match dispatch py_int order request cache table,
        dispatch py_int order (without "with_num_members" request) cache table
  with
  | Ok views, Ok views' =>
      List.length views = List.length views' /\
      (present (query_params request !! "qty") = None ->
       drop_count <$> views ≡ₚ views')
  | Raise e, Raise e' => e = e'
  | _, _ => False
  end.
Proof.
  intros Hsrc. rewrite !dispatch_view. cbv zeta.
  rewrite auth_ok_without, !without_lookup_ne by discriminate.
  assert (Hnum : with_num_members (without "with_num_members" request) = false).
  { unfold with_num_members. rewrite without_lookup_eq.
    now apply bool_decide_eq_false_2. }
  rewrite Hnum.
  assert (Hcat : forall f : Server.t -> bool,
    List.filter (fun s => category_ok (without "with_num_members" request) s && f s) table =
    List.filter (fun s => category_ok request s && f s) table).
  { intros f. apply List.filter_ext. intros s.
    now rewrite category_ok_without by discriminate. }
  assert (Hcat' :
    List.filter (category_ok (without "with_num_members" request)) table =
    List.filter (category_ok request) table).
  { apply List.filter_ext. intros s. now apply category_ok_without. }
  rewrite Hcat'. clear Hcat'.
  assert (Hc1 : cached_rows request cache = None).
  { unfold cached_rows, own_query.
    destruct Hsrc as [-> | Hc]; [now repeat case_match|].
    now destruct (present (query_params request !! "category")). }
  assert (Hc2 : cached_rows (without "with_num_members" request) cache = None).
  { unfold cached_rows, own_query.
    rewrite without_lookup_ne, Hnum by discriminate.
    destruct Hsrc as [-> | Hc]; [now repeat case_match|].
    now destruct (present (query_params request !! "category")). }
  rewrite Hc1, Hc2.
  assert (Hperm : forall q q' (l : list Server.t),
    drop_count <$> (view_of (with_num_members request) <$> QuerySet.ordered order q l)
    ≡ₚ view_of false <$> QuerySet.ordered order q' l).
  { intros q q' l. rewrite drop_count_view_of.
    apply fmap_Permutation. now rewrite !ordered_perm. }
  destruct (auth_ok request); [|reflexivity].
  destruct (present (query_params request !! "qty")) as [qty|].
  - destruct (py_int qty) as [n|]; [|reflexivity].
    destruct (n <? 0); [reflexivity|].
    destruct (present (query_params request !! "by_serverid")); [reflexivity|].
    destruct (QuerySet.max_limit <? n); [reflexivity|].
    split; [|discriminate].
    now rewrite !length_fmap, !first_n_take, !length_take, !length_ordered.
  - destruct (present (query_params request !! "by_serverid")) as [sid|].
    + destruct (py_int sid) as [i|]; [|reflexivity].
      rewrite (Hcat (fun s => Server.id s =? i)).
      destruct (List.filter
                  (fun s => category_ok request s && (Server.id s =? i)) table)
        as [|s found]; [reflexivity|].
      split; [|intros _; apply Hperm].
      now rewrite !length_fmap, !length_ordered.
    + split; [|intros _; apply Hperm].
      now rewrite !length_fmap, !length_ordered.
Qed.

End Properties.

(** ** The handler on sample data *)

Example parse_examples :
  PyInt.parse "42" = Some 42 /\ PyInt.parse " -7 " = Some (-7) /\
  PyInt.parse "1_000" = Some 1000 /\ PyInt.parse "007" = Some 7 /\
  PyInt.parse "" = None /\ PyInt.parse "abc" = None /\
  PyInt.parse "1__0" = None /\ PyInt.parse "- 5" = None /\
  PyInt.parse "5_" = None /\ PyInt.parse "5.0" = None /\
  PyInt.parse "1 2" = None.
Proof. repeat split; reflexivity. Qed.

(** U+0663 (ARABIC-INDIC DIGIT THREE) is a decimal digit, U+00A0 (NO-BREAK
    SPACE) is white space around the number, the control character 28 is
    not. *)
Example parse_beyond_ascii :
  PyInt.parse (String (ascii_of_nat 217) (String (ascii_of_nat 163) "")) = Some 3 /\
  PyInt.parse (String (ascii_of_nat 194) (String (ascii_of_nat 160) "5")) = Some 5 /\
  PyInt.parse (String (ascii_of_nat 28) "5") = None.
Proof. repeat split; vm_compute; reflexivity. Qed.

(** category=gaming, qty=2, with_num_members=true: at most two records, all
    of category "gaming", each with its member count. *)
Example scenario_category_qty_count :
  dispatch PyInt.parse Sample.order
    (Sample.request AnonymousUser
       [("category", "gaming"); ("qty", "2"); ("with_num_members", "true")])
    None Sample.table
  = Ok [view_with_count Sample.lobby; view_with_count Sample.arena].
Proof. vm_compute. reflexivity. Qed.

(** with_num_members=true on a database that groups by category: the
    records come in the order of the database, not of the table, and the
    limit keeps the first two of that order. *)
Example scenario_count_order :
  dispatch PyInt.parse Sample.order
    (Sample.request AnonymousUser [("with_num_members", "true")])
    None Sample.table
  = Ok [view_with_count Sample.lobby; view_with_count Sample.arena;
        view_with_count Sample.maths] /\
  dispatch PyInt.parse Sample.order
    (Sample.request AnonymousUser [("with_num_members", "true"); ("qty", "2")])
    None Sample.table
  = Ok [view_with_count Sample.lobby; view_with_count Sample.arena] /\
  dispatch PyInt.parse Sample.order
    (Sample.request AnonymousUser [("qty", "2")]) None Sample.table
  = Ok [view_of false Sample.lobby; view_of false Sample.maths].
Proof. repeat split; vm_compute; reflexivity. Qed.

(** by_serverid=999 where no record has id 999. *)
Example scenario_by_serverid_999 :
  dispatch PyInt.parse Sample.order
    (Sample.request AnonymousUser [("by_serverid", "999")]) None Sample.table
  = Raise (ValidationError "Server with id 999 not found").
Proof. vm_compute. reflexivity. Qed.

(** qty and by_serverid together: the filter is refused on the sliced
    query, also when the record is among the first [qty] ones; once the
    shared query set has cached its rows the slice is a list, which has no
    [filter]. *)
Example scenario_qty_then_by_serverid :
  dispatch PyInt.parse Sample.order
    (Sample.request AnonymousUser [("qty", "2"); ("by_serverid", "1")])
    None Sample.table
  = Raise TypeError /\
  dispatch PyInt.parse Sample.order
    (Sample.request AnonymousUser [("qty", "2"); ("by_serverid", "1")])
    (Some Sample.table) Sample.table
  = Raise AttributeError.
Proof. split; vm_compute; reflexivity. Qed.

(** The largest LIMIT and the one after it. *)
Example scenario_qty_limit :
  dispatch PyInt.parse Sample.order
    (Sample.request AnonymousUser [("qty", "9223372036854775807")])
    None Sample.table
  = Ok (view_of false <$> Sample.table) /\
  dispatch PyInt.parse Sample.order
    (Sample.request AnonymousUser [("qty", "9223372036854775808")])
    None Sample.table
  = Raise DatabaseError.
Proof. split; vm_compute; reflexivity. Qed.

(** A request without parameters leaves its rows in the shared query set,
    and a later one is answered with them, whatever is stored by then. *)
Example scenario_shared_queryset :
  result_cache
    (snd (ServerListViewSet.list PyInt.parse Sample.order
            (Sample.request AnonymousUser []) (new_view None [Sample.arena])))
  = Some [Sample.arena] /\
  dispatch PyInt.parse Sample.order (Sample.request AnonymousUser [])
    (Some [Sample.arena]) Sample.table
  = Ok [view_of false Sample.arena] /\
  dispatch PyInt.parse Sample.order (Sample.request AnonymousUser [("qty", "2")])
    (Some [Sample.arena]) Sample.table
  = Ok [view_of false Sample.arena].
Proof. repeat split; vm_compute; reflexivity. Qed.

(** C1: the handler at a request with [by_user=true] from the authenticated
    user 7, who is a member of the server "arena" only: it returns all three
    records, the same as without [by_user], among them two servers the
    requester is not a member of.  The membership filter of line 60 is not
    applied. *)
Theorem by_user_returns_non_members :
  let request := Sample.request (AuthUser 7) [("by_user", "true")] in
  query_params request !! "by_user" = Some "true" /\
  is_authenticated (user request) = true /\
  (forall order, exists views,
     dispatch PyInt.parse order request None Sample.table = Ok views /\
     dispatch PyInt.parse order (without "by_user" request) None Sample.table =
       Ok views /\
     view_id <$> views = [1; 2; 3]) /\
  (7 ∉ Server.member Sample.lobby) /\
  (7 ∉ Server.member Sample.maths) /\
  (7 ∈ Server.member Sample.arena).
Proof.
  cbv zeta. split; [reflexivity|]. split; [reflexivity|]. split.
  - intros order. eexists.
    split; [vm_compute; reflexivity|]. split; vm_compute; reflexivity.
  - unfold Sample.lobby, Sample.maths, Sample.arena. simpl.
    repeat split; apply (bool_decide_unpack _); vm_compute; exact I.
Qed.

(** C6: the handler against the fixed sequence of the specification, at a
    request with [by_user=true] and [category=gaming] from the authenticated
    user 2, who is a member of the server "lobby" only.  The sequence, with
    its membership step between the category filter and the annotation,
    gives "lobby"; the handler gives "lobby" and "arena": it goes from the
    category filter to the annotation without filtering by membership. *)
Theorem membership_step_is_skipped :
  let request :=
    Sample.request (AuthUser 2) [("by_user", "true"); ("category", "gaming")] in
  claimed_sequence PyInt.parse request Sample.table =
    Ok [view_of false Sample.lobby] /\
  (forall order,
     dispatch PyInt.parse order request None Sample.table =
       Ok [view_of false Sample.lobby; view_of false Sample.arena] /\
     dispatch PyInt.parse order request None Sample.table <>
       claimed_sequence PyInt.parse request Sample.table) /\
  (2 ∈ Server.member Sample.lobby) /\
  (2 ∉ Server.member Sample.arena).
Proof.
  cbv zeta. split; [vm_compute; reflexivity|]. split.
  - intros order.
    assert (H : dispatch PyInt.parse order
                  (Sample.request (AuthUser 2)
                     [("by_user", "true"); ("category", "gaming")])
                  None Sample.table =
                Ok [view_of false Sample.lobby; view_of false Sample.arena])
      by (vm_compute; reflexivity).
    split; [exact H|]. rewrite H. vm_compute. discriminate.
  - unfold Sample.lobby, Sample.arena. simpl.
    split; apply (bool_decide_unpack _); vm_compute; exact I.
Qed.

(** C2 as stated fails: with [by_user=true] from an anonymous user and
    [by_serverid=abc], which does not parse, the handler raises
    [AuthenticationFailed], not the [ValidationError]. *)
Lemma by_serverid_error_can_be_hidden :
  ~ (forall request cache table sid,
       query_params request !! "by_serverid" = Some sid ->
       (PyInt.parse sid = None \/
        forall s, s ∈ table -> PyInt.parse sid <> Some (Server.id s)) ->
       dispatch PyInt.parse Sample.order request cache table =
       Raise (ValidationError ("Server with id " ++ sid ++ " not found"))).
Proof.
  intros H.
  specialize (H (Sample.request AnonymousUser
                   [("by_user", "true"); ("by_serverid", "abc")])
                None Sample.table "abc" eq_refl (or_introl eq_refl)).
  vm_compute in H. discriminate H.
Qed.


(** C8 as stated fails: [qty] present with the empty string does not parse
    as an integer, the guard of line 49 is passed, and the handler returns
    the records instead of raising. *)
Lemma empty_qty_does_not_raise :
  ~ (forall request cache table q,
       query_params request !! "qty" = Some q ->
       PyInt.parse q = None ->
       auth_ok request = true ->
       exists e,
         dispatch PyInt.parse Sample.order request cache table = Raise e /\
         user_facing e = false).
Proof.
  intros H.
  destruct (H (Sample.request AnonymousUser [("qty", "")]) None Sample.table ""
              eq_refl eq_refl eq_refl) as (e & He & _).
  vm_compute in He. discriminate He.
Qed.

(** ** The theorems at concrete requests *)

Lemma by_user_requires_authentication_witness :
  let request :=
    Sample.request AnonymousUser [("by_user", "true"); ("qty", "x")] in
  query_params request !! "by_user" = Some "true" /\
  is_authenticated (user request) = false /\
  ServerListViewSet.list PyInt.parse Sample.order request
    (new_view None Sample.table) =
  (Raise AuthenticationFailed, new_view None Sample.table).
Proof.
  cbv zeta. split; [reflexivity|]. split; [reflexivity|].
  apply (by_user_requires_authentication PyInt.parse Sample.order); reflexivity.
Defined.

Lemma empty_parameter_is_absent_witness :
  let request :=
    Sample.request AnonymousUser [("qty", ""); ("category", "gaming")] in
  query_params request !! "qty" = Some "" /\
  ServerListViewSet.list PyInt.parse Sample.order request
    (new_view None Sample.table) =
  ServerListViewSet.list PyInt.parse Sample.order (without "qty" request)
    (new_view None Sample.table).
Proof.
  cbv zeta. split; [reflexivity|].
  apply (empty_parameter_is_absent PyInt.parse Sample.order); [|reflexivity].
  apply elem_of_cons; right. apply elem_of_cons; left. reflexivity.
Defined.

Lemma num_members_counts_members_witness :
  let request := Sample.request AnonymousUser [("with_num_members", "true")] in
  let views :=
    [view_with_count Sample.lobby; view_with_count Sample.arena;
     view_with_count Sample.maths] in
  dispatch PyInt.parse Sample.order request None Sample.table = Ok views /\
  exists servers,
    servers ⊆+ Sample.table /\
    served_rows PyInt.parse Sample.order request None Sample.table =
      Ok (annotated_row <$> servers) /\
    views = view_with_count <$> servers.
Proof.
  cbv zeta. split; [vm_compute; reflexivity|].
  apply (num_members_counts_members PyInt.parse Sample.order
           (Sample.request AnonymousUser [("with_num_members", "true")])).
  - reflexivity.
  - vm_compute. reflexivity.
Defined.


Lemma category_filter_witness :
  let request :=
    Sample.request AnonymousUser [("category", "cooking"); ("qty", "2")] in
  Forall (fun s => Server.category s <> "cooking") Sample.table /\
  dispatch PyInt.parse Sample.order request None Sample.table = Ok [].
Proof.
  cbv zeta.
  assert (Hnone : Forall (fun s => Server.category s <> "cooking") Sample.table)
    by (repeat constructor; discriminate).
  split; [exact Hnone|].
  apply (proj2 (proj2 (category_filter PyInt.parse Sample.order
                         (Sample.request AnonymousUser
                            [("category", "cooking"); ("qty", "2")])
                         None Sample.table "cooking" eq_refl eq_refl) Hnone));
    reflexivity.
Defined.

Lemma qty_parse_failure_is_unhandled_witness :
  let request :=
    Sample.request AnonymousUser [("qty", "two"); ("by_serverid", "abc")] in
  query_params request !! "qty" = Some "two" /\
  PyInt.parse "two" = None /\
  dispatch PyInt.parse Sample.order request None Sample.table = Raise ValueError /\
  user_facing ValueError = false.
Proof.
  cbv zeta. split; [reflexivity|]. split; [reflexivity|].
  apply (qty_parse_failure_is_unhandled PyInt.parse Sample.order) with (q := "two");
    reflexivity.
Defined.

Lemma by_serverid_not_found_witness :
  let request :=
    Sample.request (AuthUser 7) [("by_serverid", "abc"); ("by_user", "true")] in
  dispatch PyInt.parse Sample.order request None Sample.table =
  Raise (ValidationError ("Server with id " ++ "abc" ++ " not found")).
Proof.
  cbv zeta.
  apply (by_serverid_not_found PyInt.parse Sample.order);
    [reflexivity | reflexivity | reflexivity | reflexivity | left; reflexivity].
Defined.

(** ** Further properties at concrete requests *)

Lemma negative_qty_is_unhandled_witness :
  dispatch PyInt.parse Sample.order (Sample.request AnonymousUser [("qty", "-1")])
    (Some Sample.table) Sample.table = Raise ValueError.
Proof.
  apply (negative_qty_is_unhandled PyInt.parse Sample.order)
    with (q := "-1") (n := -1);
    [reflexivity | reflexivity | reflexivity | lia | reflexivity].
Defined.

Lemma unknown_parameter_is_ignored_witness :
  let request := Sample.request AnonymousUser [("category", "gaming")] in
  ServerListViewSet.list PyInt.parse Sample.order (with_param "page" "2" request)
    (new_view None Sample.table) =
  ServerListViewSet.list PyInt.parse Sample.order request
    (new_view None Sample.table).
Proof.
  cbv zeta. apply (unknown_parameter_is_ignored PyInt.parse Sample.order).
  apply (bool_decide_unpack _). vm_compute. exact I.
Defined.

Lemma flag_other_than_true_is_absent_witness :
  let request := Sample.request AnonymousUser [("by_user", "True")] in
  ServerListViewSet.list PyInt.parse Sample.order request
    (new_view None Sample.table) =
  ServerListViewSet.list PyInt.parse Sample.order (without "by_user" request)
    (new_view None Sample.table).
Proof.
  cbv zeta. apply (flag_other_than_true_is_absent PyInt.parse Sample.order).
  - apply elem_of_cons. left. reflexivity.
  - intros H. vm_compute in H. discriminate H.
Defined.

Lemma by_user_has_no_effect_witness :
  let request :=
    Sample.request (AuthUser 7) [("by_user", "true"); ("category", "gaming")] in
  ServerListViewSet.list PyInt.parse Sample.order request
    (new_view None Sample.table) =
  ServerListViewSet.list PyInt.parse Sample.order (without "by_user" request)
    (new_view None Sample.table).
Proof.
  cbv zeta. apply (by_user_has_no_effect PyInt.parse Sample.order). reflexivity.
Defined.

Lemma validation_error_comes_from_by_serverid_witness :
  let request := Sample.request AnonymousUser [("by_serverid", "999")] in
  exists sid,
    query_params request !! "by_serverid" = Some sid /\
    nonempty sid = true /\
    "Server with id 999 not found" = "Server with id " ++ sid ++ " not found" /\
    present (query_params request !! "qty") = None /\
    auth_ok request = true.
Proof.
  cbv zeta.
  apply (validation_error_comes_from_by_serverid PyInt.parse Sample.order _
           None Sample.table).
  vm_compute. reflexivity.
Defined.

Lemma unhandled_error_comes_from_qty_witness :
  let request :=
    Sample.request AnonymousUser [("qty", "9223372036854775808")] in
  dispatch PyInt.parse Sample.order request None Sample.table =
    Raise DatabaseError /\
  (auth_ok request = true /\
   exists q,
     present (query_params request !! "qty") = Some q /\
     (PyInt.parse q = None \/
      exists n, PyInt.parse q = Some n /\
        (n < 0 \/
         present (query_params request !! "by_serverid") <> None \/
         QuerySet.max_limit < n))).
Proof.
  cbv zeta. split; [vm_compute; reflexivity|].
  apply (unhandled_error_comes_from_qty PyInt.parse Sample.order _
           None Sample.table DatabaseError).
  - vm_compute. reflexivity.
  - reflexivity.
Defined.

Lemma no_filter_answer_witness :
  let request := Sample.request AnonymousUser [] in
  dispatch PyInt.parse Sample.order request (Some [Sample.arena]) Sample.table =
    Ok (if with_num_members request
        then view_of true <$>
               QuerySet.group_order Sample.order
                 (QuerySet.annotate QuerySet.all) Sample.table
        else view_of false <$> default Sample.table (Some [Sample.arena])) /\
  result_cache
    (snd (ServerListViewSet.list PyInt.parse Sample.order request
            (new_view (Some [Sample.arena]) Sample.table))) =
    (if with_num_members request then Some [Sample.arena]
     else Some (default Sample.table (Some [Sample.arena]))).
Proof.
  cbv zeta. apply (no_filter_answer PyInt.parse Sample.order); reflexivity.
Defined.

Lemma answer_is_drawn_from_the_records_witness :
  let request :=
    Sample.request AnonymousUser
      [("with_num_members", "true"); ("qty", "2")] in
  exists servers,
    servers ⊆+ scanned request None Sample.table /\
    [view_with_count Sample.lobby; view_with_count Sample.arena] =
    view_of (with_num_members request) <$> servers.
Proof.
  cbv zeta. apply (answer_is_drawn_from_the_records PyInt.parse Sample.order).
  vm_compute. reflexivity.
Defined.

Lemma category_returns_all_matching_witness :
  let request := Sample.request AnonymousUser [("category", "gaming")] in
  dispatch PyInt.parse Sample.order request None Sample.table =
  Ok [view_of false Sample.lobby; view_of false Sample.arena].
Proof.
  cbv zeta.
  exact (category_returns_all_matching PyInt.parse Sample.order
           (Sample.request AnonymousUser [("category", "gaming")])
           None Sample.table "gaming" eq_refl eq_refl eq_refl eq_refl eq_refl).
Defined.

Lemma by_serverid_selects_by_id_witness :
  let request :=
    Sample.request AnonymousUser [("by_serverid", "2"); ("category", "gaming")] in
  dispatch PyInt.parse Sample.order request None Sample.table =
  Raise (ValidationError ("Server with id " ++ "2" ++ " not found")).
Proof.
  cbv zeta.
  exact (by_serverid_selects_by_id PyInt.parse Sample.order
           (Sample.request AnonymousUser
              [("by_serverid", "2"); ("category", "gaming")])
           None Sample.table "2" 2 eq_refl eq_refl eq_refl eq_refl eq_refl).
Defined.

Lemma by_serverid_returns_one_record_witness :
  let request := Sample.request AnonymousUser [("by_serverid", "3")] in
  exists s,
    s ∈ Sample.table /\ PyInt.parse "3" = Some (Server.id s) /\
    [view_of false Sample.arena] = [view_of (with_num_members request) s].
Proof.
  cbv zeta.
  apply (by_serverid_returns_one_record PyInt.parse Sample.order _ None).
  - apply (bool_decide_unpack _). vm_compute. exact I.
  - reflexivity.
  - reflexivity.
  - vm_compute. reflexivity.
Defined.

Lemma with_num_members_keeps_selection_witness :
  let request :=
    Sample.request AnonymousUser [("with_num_members", "true"); ("qty", "2")] in
  match dispatch PyInt.parse Sample.order request None Sample.table,
        dispatch PyInt.parse Sample.order
          (without "with_num_members" request) None Sample.table
  with
  | Ok views, Ok views' =>
      List.length views = List.length views' /\
      (present (query_params request !! "qty") = None ->
       drop_count <$> views ≡ₚ views')
  | Raise e, Raise e' => e = e'
  | _, _ => False
  end.
Proof.
  cbv zeta.
  apply (with_num_members_keeps_selection PyInt.parse Sample.order).
  left. reflexivity.
Defined.
